(** * asteroid.engine.system: the [System] adapter for pytorch-lightning

    A shallow embedding of [src/asteroid/engine/system.py].  The class
    [System] wraps a model, an optimizer, a loss object, two data loaders, an
    optional scheduler and a configuration blob, and implements the callbacks
    the training loop invokes.

    Python objects are embedded as follows.
    - Dictionaries are mutable and may be shared, so they live in a store
      ([heap]) and a value only carries their address ([VDict]).
    - The instance attributes of [self] are a record kept in the state, so
      that an assignment to one of them would be visible.
    - The collaborators (model, loss object, ...) are opaque objects
      ([VObj]).  What they answer when a method is invoked on them is given
      by an oracle over a collaborator state; every invocation is recorded
      in the state ([calls]).
    - Tensors hold floating-point data.  Stacking only moves the data and
      is embedded; the arithmetic of the tensor library (the mean, with its
      rounding, its order of summation and its errors) is a parameter of
      the embedding.
    - The attributes that the decorator of the accessors adds to [self]
      are kept apart from those of [__init__] ([lazy]). *)

From Stdlib Require Import ZArith QArith SpecFloat.
From stdpp Require Import base option list strings pretty gmap.

Close Scope Q_scope.
Open Scope string_scope.

(** ** Values *)

Definition loc := positive.
Bind Scope positive_scope with loc.

(** A tensor: its shape and its elements, floating-point data in the sense
    of IEEE 754 (zeros, finite numbers, infinities, not-a-number). *)
Record tensor := Tensor { shape : list nat; data : list spec_float }.

#[local] Set Warnings "-register-all".

Inductive value :=
| VNone
| VInt (n : Z)
| VStr (s : string)
| VTensor (t : tensor)
| VTuple (vs : list value)
| VList (vs : list value)
| VDict (l : loc)
| VObj (o : positive).

Inductive exn :=
| ValueError (msg : string)
| RuntimeError (msg : string)
| TypeError (msg : string)
| KeyError (k : string)
| Raised (e : value).

Inductive result (A : Type) :=
| Ok (a : A)
| Err (e : exn).
Arguments Ok {A} a.
Arguments Err {A} e.

(** A call of the method [meth] of [callee] with positional arguments
    [args] and keyword arguments [kwargs]; [meth = None] stands for a call
    of [callee] itself. *)
Record invocation := Invoke {
  callee : value;
  meth : option string;
  args : list value;
  kwargs : list (string * value)
}.

(** The attributes assigned by [System.__init__]. *)
Record System := Build_System {
  model : value;
  optimizer : value;
  loss_class : value;
  train_loader : value;
  val_loader : value;
  scheduler : value;
  config : value
}.

Module Torch.

(** A tensor of no dimension, holding one element. *)
Definition scalar_tensor (s : spec_float) : tensor := Tensor [] [s].

(** Argument parsing of [torch.stack]: every element is a tensor. *)
Fixpoint as_tensors (vs : list value) (i : nat) : result (list tensor) :=
  match vs with
  | [] => Ok []
  | VTensor t :: vs' =>
      match as_tensors vs' (S i) with
      | Ok ts => Ok (t :: ts)
      | Err e => Err e
      end
  | _ :: _ =>
      Err (TypeError ("expected Tensor as element " +:+ pretty i
                      +:+ " in argument 0"))
  end.

Definition same_shape (s : list nat) (t : tensor) : bool :=
  bool_decide (shape t = s).

(** [torch.stack(tensors)] along dimension 0. *)
Definition stack (vs : list value) : result tensor :=
  match as_tensors vs 0 with
  | Err e => Err e
  | Ok [] => Err (RuntimeError "stack expects a non-empty TensorList")
  | Ok (t :: ts) =>
      if forallb (same_shape (shape t)) ts
      then Ok (Tensor (S (length ts) :: shape t)
                      (concat (data <$> (t :: ts))))
      else Err (RuntimeError "stack expects each tensor to be equal size")
  end.

End Torch.

(** ** State and the monad of method bodies *)

Section Adapter.

(** The collaborators: their private state and what an invocation
    answers.  An answer depends on, and changes, the collaborators' own
    state only: a collaborator that writes into a dictionary it is handed
    is not represented, and what is stated of the store is stated of the
    writes of the adapter. *)
Context {W : Type}.
Variable oracle : invocation -> W -> result value * W.

(** [t.mean()] of the tensor library: the tensor it returns or the error
    it raises. *)
Variable tensor_mean : tensor -> result tensor.

Record state := State {
  self : System;
  heap : gmap loc (gmap string value);
  calls : list invocation;
  world : W;
  lazy : gmap string value
}.

Definition M (A : Type) : Type := state -> result A * state.

#[export] Instance M_ret : MRet M := fun A a st => (Ok a, st).

#[export] Instance M_bind : MBind M := fun A B k m st =>
  match m st with
  | (Ok a, st') => k a st'
  | (Err e, st') => (Err e, st')
  end.

Definition raise {A} (e : exn) : M A := fun st => (Err e, st).

Definition lift {A} (r : result A) : M A := fun st => (r, st).

(** [self.f] *)
Definition attr (f : System -> value) : M value :=
  fun st => (Ok (f (self st)), st).

(** [dict(...)] or a dictionary display: a new object. *)
Definition new_dict (d : gmap string value) : M value :=
  fun st =>
    let l := fresh (dom (heap st)) in
    (Ok (VDict l),
     State (self st) (<[l := d]> (heap st)) (calls st) (world st)
           (lazy st)).

(** [v[k]] *)
Definition getitem (v : value) (k : string) : M value :=
  fun st =>
    match v with
    | VDict l =>
        match heap st !! l with
        | Some d =>
            match d !! k with
            | Some x => (Ok x, st)
            | None => (Err (KeyError k), st)
            end
        | None => (Err (TypeError "object is not subscriptable"), st)
        end
    | _ => (Err (TypeError "object is not subscriptable"), st)
    end.

(** [v[k] = x] *)
Definition setitem (v : value) (k : string) (x : value) : M unit :=
  fun st =>
    match v with
    | VDict l =>
        match heap st !! l with
        | Some d =>
            (Ok tt,
             State (self st) (<[l := <[k := x]> d]> (heap st))
                   (calls st) (world st) (lazy st))
        | None =>
            (Err (TypeError "object does not support item assignment"), st)
        end
    | _ => (Err (TypeError "object does not support item assignment"), st)
    end.

(** An invocation of a collaborator, recorded in [calls]. *)
Definition invoke (i : invocation) : M value :=
  fun st =>
    let '(r, w) := oracle i (world st) in
    (r, State (self st) (heap st) (calls st ++ [i]) w (lazy st)).

(** ** The methods of [System] *)

(** [__init__]: the only place where attributes are assigned.  The last
    three arguments are optional and default to [None].  The initialiser of
    the base class, called first, is the training library's and holds none
    of these attributes. *)
Definition init (model optimizer loss_class train_loader : value)
    (val_loader scheduler config : option value) : M value :=
  fun st =>
    (Ok VNone,
     State (Build_System model optimizer loss_class train_loader
              (default VNone val_loader) (default VNone scheduler)
              (default VNone config))
           (heap st) (calls st) (world st) (lazy st)).

Definition forward (args : list value) (kwargs : list (string * value))
    : M value :=
  m ← attr model;
  invoke (Invoke m (Some "forward") args kwargs).

Definition malformed_batch (n : nat) : exn :=
  ValueError ("Expected DataLoader output to have 2 or 3 elements. Received "
              +:+ pretty n +:+ " elements").

(** What a sequence assignment raises when the right-hand side has not
    [n] elements. *)
Definition unpack_error (n : nat) (data : list value) : exn :=
  if decide (length data < n)
  then ValueError ("not enough values to unpack (expected " +:+ pretty n
                   +:+ ", got " +:+ pretty (length data) +:+ ")")
  else ValueError ("too many values to unpack (expected " +:+ pretty n
                   +:+ ")").

(** [a, b = data] *)
Definition unpack2 (data : list value) : M (value * value) :=
  match data with
  | [a; b] => mret (a, b)
  | _ => raise (unpack_error 2 data)
  end.

(** [a, b, c = data] *)
Definition unpack3 (data : list value) : M (value * value * value) :=
  match data with
  | [a; b; c] => mret (a, b, c)
  | _ => raise (unpack_error 3 data)
  end.

Definition unpack_data (data : list value) : M (value * value * value) :=
  if decide (length data = 2) then
    '(inputs, targets) ← unpack2 data;
    infos ← new_dict ∅;
    mret (inputs, targets, infos)
  else if decide (length data = 3) then
    '(inputs, targets, infos) ← unpack3 data;
    mret (inputs, targets, infos)
  else raise (malformed_batch (length data)).

Definition common_step (batch : list value) (batch_nb : Z) : M value :=
  '(inputs, targets, infos) ← unpack_data batch;
  m ← attr model;
  est_targets ← invoke (Invoke m None [inputs] []);
  l ← attr loss_class;
  loss ← invoke (Invoke l (Some "compute") [targets; est_targets]
                        [("infos", infos)]);
  mret loss.

Definition training_step (batch : list value) (batch_nb : Z) : M value :=
  loss ← common_step batch batch_nb;
  tensorboard_logs ← new_dict {[ "train_loss" := loss ]};
  new_dict {[ "loss" := loss; "log" := tensorboard_logs ]}.

Definition validation_step (batch : list value) (batch_nb : Z) : M value :=
  loss ← common_step batch batch_nb;
  new_dict {[ "val_loss" := loss ]}.

(** The comprehension [[x['val_loss'] for x in outputs]]. *)
Fixpoint val_losses (outputs : list value) : M (list value) :=
  match outputs with
  | [] => mret []
  | x :: outputs' =>
      l ← getitem x "val_loss";
      ls ← val_losses outputs';
      mret (l :: ls)
  end.

Definition validation_end (outputs : list value) : M value :=
  losses ← val_losses outputs;
  stacked ← lift (Torch.stack losses);
  avg ← lift (tensor_mean stacked);
  let avg_loss := VTensor avg in
  tensorboard_logs ← new_dict {[ "val_loss" := avg_loss ]};
  new_dict {[ "val_loss" := avg_loss; "log" := tensorboard_logs;
              "progress_bar" := tensorboard_logs ]}.

(** [v is not None] *)
Definition is_not_none (v : value) : bool :=
  match v with
  | VNone => false
  | _ => true
  end.

Definition configure_optimizers : M value :=
  s ← attr scheduler;
  if is_not_none s then
    o ← attr optimizer;
    s' ← attr scheduler;
    mret (VTuple [o; s'])
  else attr optimizer.

(** [isinstance(v, list)] *)
Definition is_list (v : value) : bool :=
  match v with
  | VList _ => true
  | _ => false
  end.

(** The decorator [pl.data_loader] of the training library, applied to the
    method [name] with body [fn].  The body is evaluated at the first call
    only and its value is kept in the attribute [_lazy_<name>] of [self];
    the value of [val_dataloader] (or [test_dataloader]) that is neither
    [None] nor a list is put in a list.  The bodies decorated here read an
    attribute or return [None]: they raise nothing for the decorator to
    translate. *)
Definition data_loader (name : string) (fn : M value) : M value :=
  fun st =>
    match lazy st !! ("_lazy_" +:+ name) with
    | Some v => (Ok v, st)
    | None =>
        match fn st with
        | (Ok v, st1) =>
            let v' :=
              if is_not_none v && negb (is_list v)
                 && (String.eqb name "test_dataloader"
                     || String.eqb name "val_dataloader")
              then VList [v] else v in
            (Ok v',
             State (self st1) (heap st1) (calls st1) (world st1)
                   (<["_lazy_" +:+ name := v']> (lazy st1)))
        | (Err e, st1) => (Err e, st1)
        end
    end.

Definition train_dataloader : M value :=
  data_loader "train_dataloader" (attr train_loader).

Definition val_dataloader : M value :=
  data_loader "val_dataloader" (attr val_loader).

Definition on_save_checkpoint (checkpoint : value) : M value :=
  c ← attr config;
  setitem checkpoint "training_config" c;;
  mret checkpoint.

Definition on_batch_start (batch : value) : M value := mret VNone.

Definition on_batch_end : M value := mret VNone.

Definition on_epoch_start : M value := mret VNone.

Definition on_epoch_end : M value := mret VNone.

Definition tng_dataloader : M value :=
  data_loader "tng_dataloader" (mret VNone).

(** ** The callback surface as one datatype *)

Inductive op :=
| Forward (args : list value) (kwargs : list (string * value))
| UnpackData (data : list value)
| CommonStep (batch : list value) (batch_nb : Z)
| TrainingStep (batch : list value) (batch_nb : Z)
| ValidationStep (batch : list value) (batch_nb : Z)
| ValidationEnd (outputs : list value)
| ConfigureOptimizers
| TrainDataloader
| ValDataloader
| OnSaveCheckpoint (checkpoint : value)
| OnBatchStart (batch : value)
| OnBatchEnd
| OnEpochStart
| OnEpochEnd
| TngDataloader.

Definition run (o : op) : M value :=
  match o with
  | Forward args kwargs => forward args kwargs
  | UnpackData data =>
      '(inputs, targets, infos) ← unpack_data data;
      mret (VTuple [inputs; targets; infos])
  | CommonStep batch batch_nb => common_step batch batch_nb
  | TrainingStep batch batch_nb => training_step batch batch_nb
  | ValidationStep batch batch_nb => validation_step batch batch_nb
  | ValidationEnd outputs => validation_end outputs
  | ConfigureOptimizers => configure_optimizers
  | TrainDataloader => train_dataloader
  | ValDataloader => val_dataloader
  | OnSaveCheckpoint checkpoint => on_save_checkpoint checkpoint
  | OnBatchStart batch => on_batch_start batch
  | OnBatchEnd => on_batch_end
  | OnEpochStart => on_epoch_start
  | OnEpochEnd => on_epoch_end
  | TngDataloader => tng_dataloader
  end.

End Adapter.

(** ** Statements compared with the code *)

Section Stated.

Context {W : Type}.
Variable oracle : invocation -> W -> result value * W.
Variable tensor_mean : tensor -> result tensor.

(** The common step as the specification words it: the loss object's
    [compute] applied to the targets, to [model.forward(inputs)] and to
    the infos. *)
Definition common_step_via_forward (batch : list value) (batch_nb : Z)
    : M value :=
  '(inputs, targets, infos) ← unpack_data batch;
  m ← attr model;
  est_targets ← invoke oracle (Invoke m (Some "forward") [inputs] []);
  l ← attr loss_class;
  invoke oracle (Invoke l (Some "compute") [targets; est_targets]
                        [("infos", infos)]).

(** The two invocations the common step makes, in a state [st]. *)
Definition model_call (st : @state W) (inputs : value) : invocation :=
  Invoke (model (self st)) None [inputs] [].

Definition compute_call (st : @state W) (targets est infos : value)
    : invocation :=
  Invoke (loss_class (self st)) (Some "compute") [targets; est]
         [("infos", infos)].

(** A scalar loss: a tensor of no dimension holding [e]. *)
Definition scalar_loss (e : spec_float) : value :=
  VTensor (Torch.scalar_tensor e).

(** A result of [validation_step] holding the tensor [t] as loss. *)
Definition holds_loss (st : @state W) (x : value) (t : tensor) : Prop :=
  ∃ l d, x = VDict l ∧ heap st !! l = Some d
         ∧ d !! "val_loss" = Some (VTensor t).

(** The number a floating-point datum stands for, when it is one. *)
Definition float_value (f : spec_float) : option Q :=
  match f with
  | S754_zero _ => Some 0%Q
  | S754_finite s m e =>
      Some (inject_Z (if s then Z.neg m else Z.pos m) * 2 ^ e)%Q
  | _ => None
  end.

(** The arithmetic mean as the specification words it: the sum of the
    losses over their number. *)
Definition arithmetic_mean (ls : list Q) : Q :=
  (fold_right Qplus 0 ls / inject_Z (Z.of_nat (length ls)))%Q.

(** What the specification says of the end of validation over results
    whose losses stand for the numbers [qs]: the ['val_loss'] of the
    structure returned stands for their arithmetic mean. *)
Definition val_loss_is_arithmetic_mean (st : @state W) (outputs : list value)
    (qs : list Q) : Prop :=
  ∃ d st1 entries e q,
    validation_end tensor_mean outputs st = (Ok (VDict d), st1)
    ∧ heap st1 !! d = Some entries
    ∧ entries !! "val_loss" = Some (scalar_loss e)
    ∧ float_value e = Some q
    ∧ (q == arithmetic_mean qs)%Q.

(** What the specification says of saving a checkpoint whose dictionary
    [d] is at address [l]: the dictionary comes back with the
    configuration under the fixed key and with every entry it had. *)
Definition checkpoint_entries_kept (st : @state W) (l : loc)
    (d : gmap string value) : Prop :=
  ∃ st1 d1,
    on_save_checkpoint (VDict l) st = (Ok (VDict l), st1)
    ∧ heap st1 !! l = Some d1
    ∧ d1 !! "training_config" = Some (config (self st))
    ∧ ∀ k v, d !! k = Some v → d1 !! k = Some v.

(** A method body that leaves the attributes of [self] as they are. *)
Definition keeps_self {A} (m : @M W A) : Prop :=
  ∀ st, self (m st).2 = self st.

End Stated.

(** ** Concrete collaborators and states, for evaluation *)

Module Fixtures.

(** A module with a forward hook: its [forward] method returns the input,
    a call of the module returns what the hook makes of that.  The loss
    object answers [compute] with the estimate it was given. *)
Definition hooked (i : invocation) (w : unit) : result value * unit :=
  match meth i, args i with
  | None, [x] => (Ok (VTuple [VStr "hook"; x]), w)
  | Some m, [x] =>
      if String.eqb m "forward" then (Ok x, w)
      else (Err (TypeError "unexpected call"), w)
  | Some m, [t; e] =>
      if String.eqb m "compute" then (Ok e, w)
      else (Err (TypeError "unexpected call"), w)
  | _, _ => (Err (TypeError "unexpected call"), w)
  end.

Definition system : System :=
  Build_System (VObj 1) (VObj 2) (VObj 3) (VObj 4) VNone VNone (VInt 2).

Definition empty_state : @state unit := State system ∅ [] tt ∅.

(** Single precision: 24 bits of precision, exponents below 128. *)
Definition f32_add : spec_float -> spec_float -> spec_float := SFadd 24 128.

Definition f32_div : spec_float -> spec_float -> spec_float := SFdiv 24 128.

(** The single-precision number nearest to an integer. *)
Definition f32 (z : Z) : spec_float := binary_normalize 24 128 z 0 false.

(** A tensor library in single precision: the elements are added up from
    the first to the last and the sum is divided by their number, each
    operation rounding to nearest.  For two elements this is the value the
    library returns. *)
Definition f32_mean (t : tensor) : result tensor :=
  Ok (Torch.scalar_tensor
        (f32_div (fold_left f32_add (data t) (S754_zero false))
                 (f32 (Z.of_nat (length (data t)))))).

(** The single-precision numbers nearest to 0.1 and to 0.2. *)
Definition tenth : spec_float := S754_finite false 13421773 (-27).

Definition fifth : spec_float := S754_finite false 13421773 (-26).

(** A state holding the results [{'val_loss': 0.1}] and
    [{'val_loss': 0.2}] of two validation steps. *)
Definition rounding_state : @state unit :=
  State system {[ 1%positive := {[ "val_loss" := scalar_loss tenth ]};
                  2%positive := {[ "val_loss" := scalar_loss fifth ]} ]}
        [] tt ∅.

(** A state in which the dictionary at address 1 is a checkpoint that
    already has a ['training_config'] entry. *)
Definition saved_state : @state unit :=
  State system {[ 1%positive := {[ "training_config" := VInt 1;
                                   "epoch" := VInt 5 ]} ]} [] tt ∅.

(** A state holding the three results [{'val_loss': 1}], [{'val_loss': 2}]
    and [{'val_loss': 6}] of validation steps. *)
Definition validated_state : @state unit :=
  State system {[ 1%positive := {[ "val_loss" := scalar_loss (f32 1) ]};
                  2%positive := {[ "val_loss" := scalar_loss (f32 2) ]};
                  3%positive := {[ "val_loss" := scalar_loss (f32 6) ]} ]}
        [] tt ∅.

End Fixtures.

(** ** Histories of calls *)

Section Histories.

Context {W : Type}.
Variable oracle : invocation -> W -> result value * W.
Variable tensor_mean : tensor -> result tensor.

(** The state after a sequence of method calls, whatever each call returns
    or raises. *)
Fixpoint run_all (os : list op) (st : @state W) : state :=
  match os with
  | [] => st
  | o :: os' => run_all os' (run oracle tensor_mean o st).2
  end.

(** The methods that reach a collaborator. *)
Definition is_step (o : op) : bool :=
  match o with
  | Forward _ _ | CommonStep _ _ | TrainingStep _ _ | ValidationStep _ _ =>
      true
  | _ => false
  end.

(** The invocations the adapter makes: a call of the model, the model's
    [forward] and the loss object's [compute]. *)
Definition adapter_call (st : @state W) (i : invocation) : Prop :=
  (callee i = model (self st) ∧ (meth i = None ∨ meth i = Some "forward"))
  ∨ (callee i = loss_class (self st) ∧ meth i = Some "compute").

(** A method body that leaves every dictionary of the store as it is and
    may only add new ones. *)
Definition grows {A} (m : @M W A) : Prop :=
  ∀ st, heap st ⊆ heap (m st).2.

(** A method body that reaches no collaborator. *)
Definition quiet {A} (m : @M W A) : Prop :=
  ∀ st, calls (m st).2 = calls st ∧ world (m st).2 = world st.

(** A method body that leaves the attributes of the decorator as they
    are. *)
Definition keeps_lazy {A} (m : @M W A) : Prop :=
  ∀ st, lazy (m st).2 = lazy st.

(** What the decorated [val_dataloader] makes of the loader [v]: a list,
    unless there is none. *)
Definition as_loader_list (v : value) : value :=
  if is_not_none v && negb (is_list v) then VList [v] else v.

(** The values kept by the decorator are those the accessors compute. *)
Definition lazy_ok (st : @state W) : Prop :=
  (∀ v, lazy st !! "_lazy_train_dataloader" = Some v →
        v = train_loader (self st))
  ∧ (∀ v, lazy st !! "_lazy_val_dataloader" = Some v →
          v = as_loader_list (val_loader (self st)))
  ∧ (∀ v, lazy st !! "_lazy_tng_dataloader" = Some v → v = VNone).

(** An element of [outputs] that has a ['val_loss'] entry. *)
Definition has_val_loss (st : @state W) (x : value) : Prop :=
  ∃ l d v, x = VDict l ∧ heap st !! l = Some d ∧ d !! "val_loss" = Some v.

(** Values that are not subscriptable by a string. *)
Definition no_items (v : value) : Prop :=
  match v with
  | VNone | VInt _ | VStr _ | VTuple _ | VList _ => True
  | _ => False
  end.

End Histories.

Module Scenarios.

(** A model that raises on every call; the loss object answers [compute]
    with the estimate. *)
Definition broken_model (i : invocation) (w : nat)
    : result value * nat :=
  match meth i with
  | None => (Err (Raised (VStr "out of memory")), S w)
  | Some _ => (Ok (VInt 0), S w)
  end.

(** A loss object that answers [compute] with the scalar loss 1 the first
    time and 3 afterwards; the collaborator state counts the invocations. *)
Definition counting (i : invocation) (w : nat) : result value * nat :=
  match meth i with
  | None => (Ok (VInt 0), S w)
  | Some _ =>
      (Ok (scalar_loss (Fixtures.f32 (if decide (w < 2) then 1 else 3))),
       S w)
  end.

(** A module without hooks: calling it and invoking its [forward] answer
    the same; the loss object answers [compute] with a constant. *)
Definition plain (i : invocation) (w : nat) : result value * nat :=
  match meth i with
  | None => (Ok (VList (args i)), S w)
  | Some m =>
      if String.eqb m "forward" then (Ok (VList (args i)), S w)
      else (Ok (VInt 5), S w)
  end.

Definition start : @state nat := State Fixtures.system ∅ [] 0 ∅.

(** A state whose first dictionary is a result of a validation step and
    whose second is a result of a training step. *)
Definition mixed_state : @state unit :=
  State Fixtures.system
        {[ 1%positive := {[ "val_loss" := VInt 1 ]};
           2%positive := {[ "loss" := VInt 1; "log" := VDict 3 ]};
           3%positive := {[ "train_loss" := VInt 1 ]} ]} [] tt ∅.

End Scenarios.

(** * Properties *)

Section AdapterFacts.

Context {W : Type}.
Variable oracle : invocation -> W -> result value * W.
Variable tensor_mean : tensor -> result tensor.

Implicit Types (st : @state W) (data batch : list value).

(** ** Allocation *)

Lemma fresh_unused st : heap st !! fresh (dom (heap st)) = None.
Proof. apply not_elem_of_dom, is_fresh. Qed.

Lemma new_dict_eq d st :
  new_dict d st =
    (Ok (VDict (fresh (dom (heap st)))),
     State (self st) (<[fresh (dom (heap st)) := d]> (heap st))
           (calls st) (world st) (lazy st)).
Proof. reflexivity. Qed.

(** ** Unpacking a batch *)

Lemma length_two {A} (l : list A) : length l = 2 → ∃ a b, l = [a; b].
Proof. destruct l as [|a [|b [|c l]]]; intros; simplify_eq/=; eauto. Qed.

Lemma length_three {A} (l : list A) :
  length l = 3 → ∃ a b c, l = [a; b; c].
Proof.
  destruct l as [|a [|b [|c [|e l]]]]; intros; simplify_eq/=; eauto.
Qed.

Lemma unpack_data_pair inputs targets st :
  unpack_data [inputs; targets] st =
    (Ok (inputs, targets, VDict (fresh (dom (heap st)))),
     State (self st) (<[fresh (dom (heap st)) := ∅]> (heap st))
           (calls st) (world st) (lazy st)).
Proof. reflexivity. Qed.

Lemma unpack_data_triple inputs targets infos st :
  unpack_data [inputs; targets; infos] st = (Ok (inputs, targets, infos), st).
Proof. reflexivity. Qed.

Lemma unpack_data_other data st :
  length data ≠ 2 → length data ≠ 3 →
  unpack_data data st = (Err (malformed_batch (length data)), st).
Proof.
  intros H2 H3. unfold unpack_data.
  destruct (decide (length data = 2)); [done|].
  destruct (decide (length data = 3)); done.
Qed.

Lemma string_length_app (s t : string) :
  String.length (s +:+ t) = String.length s + String.length t.
Proof. induction s as [|a s IH]; [done|]. simpl. by rewrite <- IH. Qed.

Lemma string_app_inj_r (t s1 s2 : string) : s1 +:+ t = s2 +:+ t → s1 = s2.
Proof.
  revert s2. induction s1 as [|a s1 IH]; intros [|b s2] Heq; [done|..].
  - apply (f_equal String.length) in Heq.
    rewrite !string_length_app in Heq. simpl in Heq. lia.
  - apply (f_equal String.length) in Heq.
    rewrite !string_length_app in Heq. simpl in Heq. lia.
  - injection Heq as -> Heq. f_equal. by apply IH.
Qed.

(** The message of the error determines the length it reports. *)
Lemma malformed_batch_inj n m :
  malformed_batch n = malformed_batch m → n = m.
Proof.
  unfold malformed_batch. intros [= Heq].
  apply (inj (String.app _)) in Heq.
  apply string_app_inj_r in Heq. by apply (inj pretty).
Qed.

(** C2. A batch of two elements is unpacked into its first element as
    inputs, its second as targets and an empty dictionary as infos; a
    batch of three elements is unpacked into its three elements in order,
    the third being the infos. *)
Theorem unpack_data_two_three data st :
  (length data = 2 →
     ∃ inputs targets l,
       data = [inputs; targets] ∧
       unpack_data data st =
         (Ok (inputs, targets, VDict l),
          State (self st) (<[l := ∅]> (heap st)) (calls st) (world st) (lazy st)))
  ∧ (length data = 3 →
     ∃ inputs targets infos,
       data = [inputs; targets; infos] ∧
       unpack_data data st = (Ok (inputs, targets, infos), st)).
Proof.
  split.
  - intros (a & b & ->)%length_two.
    exists a, b, (fresh (dom (heap st))). split; [done|].
    apply unpack_data_pair.
  - intros (a & b & c & ->)%length_three.
    exists a, b, c. split; [done|]. apply unpack_data_triple.
Qed.

(** C3. Unpacking fails exactly when the batch has neither two nor three
    elements, and the error raised then is the [ValueError] whose message
    ends with the decimal writing of the length of the batch. *)
Theorem unpack_data_fails_iff data st :
  ((∃ e st', unpack_data data st = (Err e, st'))
     ↔ length data ≠ 2 ∧ length data ≠ 3)
  ∧ (length data ≠ 2 → length data ≠ 3 →
     unpack_data data st =
       (Err (ValueError
               ("Expected DataLoader output to have 2 or 3 elements. Received "
                +:+ pretty (length data) +:+ " elements")), st)).
Proof.
  split; [split|].
  - intros (e & st' & He). split; intros Hlen.
    + apply length_two in Hlen as (a & b & ->).
      by rewrite unpack_data_pair in He.
    + apply length_three in Hlen as (a & b & c & ->).
      by rewrite unpack_data_triple in He.
  - intros [H2 H3]. eexists _, _. by apply unpack_data_other.
  - apply unpack_data_other.
Qed.

(** C10. For a batch of two elements the infos returned is a dictionary
    that did not exist before the call and is empty, so that two calls
    never return the same dictionary; for a batch of three elements the
    third element is returned as it is, whatever kind of value it is. *)
Theorem unpack_data_infos inputs targets infos st :
  (∃ l st1,
     unpack_data [inputs; targets] st = (Ok (inputs, targets, VDict l), st1)
     ∧ (l ∉ dom (heap st))
     ∧ heap st1 = <[l := ∅]> (heap st)
     ∧ ∀ inputs' targets', ∃ l' st2,
         unpack_data [inputs'; targets'] st1
           = (Ok (inputs', targets', VDict l'), st2)
         ∧ l' ≠ l ∧ heap st2 !! l = Some ∅ ∧ heap st2 !! l' = Some ∅)
  ∧ unpack_data [inputs; targets; infos] st
      = (Ok (inputs, targets, infos), st).
Proof.
  split; [|apply unpack_data_triple].
  eexists _, _. split; [apply unpack_data_pair|]. simpl.
  split; [apply is_fresh|]. split; [done|].
  intros i' t'. eexists _, _. split; [apply unpack_data_pair|]. simpl.
  set (l := fresh (dom (heap st))).
  set (l' := fresh (dom (<[l := ∅]> (heap st)))).
  assert (l' ≠ l) as Hne.
  { intros Heq. pose proof (is_fresh (dom (<[l := ∅]> (heap st)))) as Hf.
    fold l' in Hf. rewrite Heq in Hf. apply Hf.
    rewrite dom_insert_L. set_solver. }
  split; [done|]. split.
  - rewrite lookup_insert_ne by done. apply lookup_insert_eq.
  - apply lookup_insert_eq.
Qed.

Lemma unpack_data_frame data st r st1 :
  unpack_data data st = (r, st1) →
  self st1 = self st ∧ calls st1 = calls st ∧ world st1 = world st.
Proof.
  destruct (decide (length data = 2)) as [H2|H2].
  { apply length_two in H2 as (a & b & ->).
    rewrite unpack_data_pair. by intros [= <- <-]. }
  destruct (decide (length data = 3)) as [H3|H3].
  { apply length_three in H3 as (a & b & c & ->).
    rewrite unpack_data_triple. by intros [= <- <-]. }
  rewrite unpack_data_other by done. by intros [= <- <-].
Qed.

Lemma unpack_data_lazy data st : lazy (unpack_data data st).2 = lazy st.
Proof.
  destruct (decide (length data = 2)) as [H2|H2].
  { apply length_two in H2 as (a & b & ->). by rewrite unpack_data_pair. }
  destruct (decide (length data = 3)) as [H3|H3].
  { apply length_three in H3 as (a & b & c & ->).
    by rewrite unpack_data_triple. }
  by rewrite unpack_data_other.
Qed.

(** ** The common step *)

Lemma common_step_unfold batch nb st inputs targets infos st1 :
  unpack_data batch st = (Ok (inputs, targets, infos), st1) →
  common_step oracle batch nb st =
    match oracle (model_call st inputs) (world st) with
    | (Ok est, w1) =>
        let '(r, w2) := oracle (compute_call st targets est infos) w1 in
        (match r with Ok loss => Ok loss | Err e => Err e end,
         State (self st) (heap st1)
               (calls st ++ [model_call st inputs;
                             compute_call st targets est infos]) w2
               (lazy st))
    | (Err e, w1) =>
        (Err e,
         State (self st) (heap st1) (calls st ++ [model_call st inputs]) w1
               (lazy st))
    end.
Proof.
  intros Hu. destruct (unpack_data_frame _ _ _ _ Hu) as (Hs & Hc & Hw).
  pose proof (unpack_data_lazy batch st) as Hz. rewrite Hu in Hz.
  unfold common_step, model_call, compute_call, mbind, M_bind.
  rewrite Hu. unfold attr, invoke. simpl in *. rewrite Hs, Hc, Hw, Hz.
  destruct (oracle _ (world st)) as [[est|e] w1]; [|done]. simpl.
  destruct (oracle _ w1) as [[loss|e] w2]; simpl; by rewrite <- app_assoc.
Qed.

Lemma common_step_inv batch nb st loss st2 :
  common_step oracle batch nb st = (Ok loss, st2) →
  ∃ inputs targets infos st1 est w1 w2,
    unpack_data batch st = (Ok (inputs, targets, infos), st1)
    ∧ oracle (model_call st inputs) (world st) = (Ok est, w1)
    ∧ oracle (compute_call st targets est infos) w1 = (Ok loss, w2)
    ∧ st2 = State (self st) (heap st1)
                  (calls st ++ [model_call st inputs;
                                compute_call st targets est infos]) w2
                  (lazy st).
Proof.
  destruct (unpack_data batch st) as [[[[i t] a]|e] st1] eqn:Hu.
  - rewrite (common_step_unfold _ _ _ _ _ _ _ Hu).
    destruct (oracle _ (world st)) as [[est|e] w1] eqn:Hm; [|done].
    destruct (oracle _ w1) as [[l|e] w2] eqn:Hl; [|done].
    intros [= <- <-]. by eexists i, t, a, st1, est, w1, w2.
  - unfold common_step, mbind, M_bind. by rewrite Hu.
Qed.

(** C1, amended.  When the batch is unpacked into (inputs, targets,
    infos) and a call of the model on the inputs answers [est], the common
    step returns exactly what the loss object's [compute] answers on the
    targets and [est] with the infos as keyword argument [infos]; the
    model is called, its [forward] method is not invoked directly. *)
Theorem common_step_calls_model batch nb st inputs targets infos st1
    est w1 r w2 :
  unpack_data batch st = (Ok (inputs, targets, infos), st1) →
  oracle (Invoke (model (self st)) None [inputs] []) (world st)
    = (Ok est, w1) →
  oracle (Invoke (loss_class (self st)) (Some "compute") [targets; est]
                 [("infos", infos)]) w1 = (r, w2) →
  common_step oracle batch nb st =
    (r, State (self st) (heap st1)
              (calls st ++
                 [Invoke (model (self st)) None [inputs] [];
                  Invoke (loss_class (self st)) (Some "compute")
                         [targets; est] [("infos", infos)]]) w2
              (lazy st)).
Proof.
  intros Hu Hm Hl. rewrite (common_step_unfold _ _ _ _ _ _ _ Hu).
  unfold model_call, compute_call. rewrite Hm, Hl. by destruct r.
Qed.

(** ** The training step *)

(** C5. When the common step returns [loss], the training step returns a
    new dictionary whose ['loss'] entry is [loss] and whose ['log'] entry
    is a new dictionary with the single entry ['train_loss'] for [loss].
    The collaborators are invoked twice in all, by the common step: the
    model is called and the loss object computes; nothing is invoked on
    the loss value or on the optimizer. *)
Theorem training_step_returns_loss batch nb st loss st1 :
  common_step oracle batch nb st = (Ok loss, st1) →
  ∃ logs d,
    training_step oracle batch nb st =
      (Ok (VDict d),
       State (self st)
             (<[d := {[ "loss" := loss; "log" := VDict logs ]}]>
                (<[logs := {[ "train_loss" := loss ]}]> (heap st1)))
             (calls st1) (world st1) (lazy st))
    ∧ (logs ∉ dom (heap st1)) ∧ (d ∉ dom (heap st1)) ∧ d ≠ logs
    ∧ ∃ inputs targets infos est,
        calls st1 =
          (calls st ++
             [Invoke (model (self st)) None [inputs] [];
              Invoke (loss_class (self st)) (Some "compute")
                     [targets; est] [("infos", infos)]])%list.
Proof.
  intros Hc.
  set (logs := fresh (dom (heap st1))).
  set (h1 := <[logs := ({[ "train_loss" := loss ]} : gmap string value)]>
               (heap st1)).
  set (d := fresh (dom h1)).
  assert (d ∉ dom h1) as Hd by apply is_fresh.
  unfold h1 in Hd. rewrite dom_insert_L in Hd.
  exists logs, d. split; [|split; [apply is_fresh|split; [set_solver|split]]].
  - unfold training_step, mbind, M_bind. rewrite Hc.
    apply common_step_inv in Hc
      as (i & t & a & st0 & est & w1 & w2 & _ & _ & _ & ->).
    reflexivity.
  - set_solver.
  - apply common_step_inv in Hc
      as (i & t & a & st0 & est & w1 & w2 & _ & _ & _ & ->).
    by exists i, t, a, est.
Qed.

(** ** Optimizers and checkpoints *)

(** C6. After construction with a scheduler (a value other than [None]),
    [configure_optimizers] returns the pair of the optimizer and the
    scheduler, in this order; after construction without a scheduler it
    returns the optimizer itself.  In both cases the state is left as it
    is. *)
Theorem configure_optimizers_returns m o l tl vl sch cfg st :
  let st1 := (init m o l tl vl sch cfg st).2 in
  (∀ s, sch = Some s → s ≠ VNone →
        configure_optimizers st1 = (Ok (VTuple [o; s]), st1))
  ∧ (sch = None → configure_optimizers st1 = (Ok o, st1)).
Proof.
  simpl. split.
  - intros s -> Hs. by destruct s.
  - by intros ->.
Qed.

(** C7, amended.  Saving into a checkpoint dictionary returns that same
    dictionary, in which the fixed key ['training_config'] now holds the
    configuration, whether or not the key was there before, and in which
    the entries under every other key are as they were.  Nothing else
    changes. *)
Theorem on_save_checkpoint_sets_config l d st :
  heap st !! l = Some d →
  ∃ st1 d1,
    on_save_checkpoint (VDict l) st = (Ok (VDict l), st1)
    ∧ heap st1 !! l = Some d1
    ∧ d1 !! "training_config" = Some (config (self st))
    ∧ (∀ k, k ≠ "training_config" → d1 !! k = d !! k)
    ∧ (∀ l', l' ≠ l → heap st1 !! l' = heap st !! l')
    ∧ self st1 = self st ∧ calls st1 = calls st ∧ world st1 = world st.
Proof.
  intros Hl. eexists _, (<["training_config" := config (self st)]> d).
  split.
  { unfold on_save_checkpoint, mbind, M_bind, attr, setitem. simpl.
    rewrite Hl. reflexivity. }
  simpl. split; [apply lookup_insert_eq|].
  split; [apply lookup_insert_eq|].
  split; [intros k Hk; by apply lookup_insert_ne|].
  split; [intros l' Hl'; by apply lookup_insert_ne|done].
Qed.

(** ** The end of validation *)

(** C8. On an empty list of results [validation_end] returns no
    dictionary: the error raised by stacking an empty list of tensors
    comes out, and the state is left as it is. *)
Theorem validation_end_empty st :
  validation_end tensor_mean [] st =
    (Err (RuntimeError "stack expects a non-empty TensorList"), st).
Proof. reflexivity. Qed.

Lemma val_losses_tensors outputs ts st :
  Forall2 (holds_loss st) outputs ts →
  val_losses outputs st = (Ok (VTensor <$> ts), st).
Proof.
  induction 1 as [|x t outputs ts (l & d & -> & Hl & Hd) _ IH]; [done|].
  simpl. unfold mbind, M_bind, getitem. by rewrite Hl, Hd, IH.
Qed.

Lemma as_tensors_tensors ts i : Torch.as_tensors (VTensor <$> ts) i = Ok ts.
Proof.
  revert i. induction ts as [|t ts IH]; intros i; [done|].
  simpl. by rewrite IH.
Qed.

Lemma same_shape_scalars es :
  forallb (Torch.same_shape []) (Torch.scalar_tensor <$> es) = true.
Proof.
  induction es as [|e es IH]; [done|].
  rewrite fmap_cons. apply andb_true_intro. by split.
Qed.

Lemma concat_data_scalars es :
  concat (data <$> (Torch.scalar_tensor <$> es)) = es.
Proof.
  induction es as [|e es IH]; [done|].
  rewrite !fmap_cons. cbn [concat]. by rewrite IH.
Qed.

Lemma stack_scalars es :
  es ≠ [] →
  Torch.stack (VTensor <$> (Torch.scalar_tensor <$> es))
    = Ok (Tensor [length es] es).
Proof.
  destruct es as [|e es]; [done|]. intros _.
  unfold Torch.stack. rewrite as_tensors_tensors.
  rewrite fmap_cons. cbv beta iota.
  change (shape (Torch.scalar_tensor e)) with (@nil nat).
  rewrite same_shape_scalars, length_fmap.
  by rewrite <- fmap_cons, concat_data_scalars.
Qed.

Lemma validation_end_scalars outputs es st :
  outputs ≠ [] →
  Forall2 (λ x e, holds_loss st x (Torch.scalar_tensor e)) outputs es →
  validation_end tensor_mean outputs st =
    match tensor_mean (Tensor [length es] es) with
    | Ok avg =>
        (tensorboard_logs ← new_dict {[ "val_loss" := VTensor avg ]};
         new_dict {[ "val_loss" := VTensor avg; "log" := tensorboard_logs;
                     "progress_bar" := tensorboard_logs ]}) st
    | Err e => (Err e, st)
    end.
Proof.
  intros Hne HF.
  assert (es ≠ []) as Hes by (intros ->; by apply Forall2_nil_inv_r in HF).
  apply Forall2_fmap_r in HF.
  unfold validation_end, mbind, M_bind.
  rewrite (val_losses_tensors _ _ _ HF). unfold lift.
  rewrite (stack_scalars es Hes).
  by destruct (tensor_mean (Tensor [length es] es)).
Qed.

(** C4, amended.  On a non-empty list of results whose ['val_loss']
    entries are the scalar losses [es], [validation_end] hands the tensor
    library the losses stacked in their order.  When the library's mean
    answers [avg], it returns a new dictionary whose ['val_loss'] entry is
    [avg] and whose ['log'] and ['progress_bar'] entries are one new
    dictionary with the single entry ['val_loss'] for that same [avg]; when
    the library raises, the error comes out.  The value is the one the
    library computes in floating point: it need not be the exact quotient
    of the sum of the losses by their number. *)
Theorem validation_end_mean outputs es st :
  outputs ≠ [] →
  Forall2 (λ x e, holds_loss st x (Torch.scalar_tensor e)) outputs es →
  (∀ avg,
     tensor_mean (Tensor [length es] es) = Ok avg →
     ∃ logs d,
       validation_end tensor_mean outputs st =
         (Ok (VDict d),
          State (self st)
                (<[d := {[ "val_loss" := VTensor avg;
                           "log" := VDict logs;
                           "progress_bar" := VDict logs ]}]>
                   (<[logs := {[ "val_loss" := VTensor avg ]}]> (heap st)))
                (calls st) (world st) (lazy st))
       ∧ (logs ∉ dom (heap st)) ∧ (d ∉ dom (heap st)) ∧ d ≠ logs)
  ∧ (∀ e,
       tensor_mean (Tensor [length es] es) = Err e →
       validation_end tensor_mean outputs st = (Err e, st)).
Proof.
  intros Hne HF. rewrite (validation_end_scalars _ _ _ Hne HF). split.
  - intros avg ->.
    set (logs := fresh (dom (heap st))).
    set (h1 := <[logs := ({[ "val_loss" := VTensor avg ]}
                          : gmap string value)]> (heap st)).
    set (d := fresh (dom h1)).
    assert (d ∉ dom h1) as Hd by apply is_fresh.
    unfold h1 in Hd. rewrite dom_insert_L in Hd.
    exists logs, d. split; [done|]. split; [apply is_fresh|set_solver].
  - by intros e ->.
Qed.

(** ** The attributes of the adapter *)

Lemma keeps_ret {A} (a : A) : keeps_self (mret a : @M W A).
Proof. by intros st. Qed.

Lemma keeps_bind {A B} (m : @M W A) (k : A → @M W B) :
  keeps_self m → (∀ a, keeps_self (k a)) → keeps_self (m ≫= k).
Proof.
  intros Hm Hk st. unfold mbind, M_bind. specialize (Hm st).
  destruct (m st) as [[a|e] st1]; simpl in *; [|done].
  by rewrite Hk.
Qed.

Lemma keeps_raise {A} e : keeps_self (raise e : @M W A).
Proof. by intros st. Qed.

Lemma keeps_lift {A} (r : result A) : keeps_self (lift r : @M W A).
Proof. by intros st. Qed.

Lemma keeps_attr f : keeps_self (attr f : @M W value).
Proof. by intros st. Qed.

Lemma keeps_new_dict d : keeps_self (new_dict d : @M W value).
Proof. by intros st. Qed.

Lemma keeps_getitem v k : keeps_self (getitem v k : @M W value).
Proof.
  intros st. unfold getitem. destruct v; try done.
  destruct (heap st !! l) as [d|]; [|done]. by destruct (d !! k).
Qed.

Lemma keeps_setitem v k x : keeps_self (setitem v k x : @M W unit).
Proof.
  intros st. unfold setitem. destruct v; try done.
  by destruct (heap st !! l).
Qed.

Lemma keeps_invoke i : keeps_self (invoke oracle i).
Proof. intros st. unfold invoke. by destruct (oracle i (world st)). Qed.

Lemma keeps_unpack_data data : keeps_self (unpack_data data : @M W _).
Proof.
  intros st. destruct (unpack_data data st) as [r st1] eqn:Hu.
  by destruct (unpack_data_frame _ _ _ _ Hu).
Qed.

Lemma keeps_data_loader name (fn : @M W value) :
  keeps_self fn → keeps_self (data_loader name fn).
Proof.
  intros Hfn st. unfold data_loader. specialize (Hfn st).
  destruct (lazy st !! _); [done|]. by destruct (fn st) as [[v|e] st1].
Qed.

Create HintDb keeps.

#[local] Hint Resolve keeps_ret keeps_raise keeps_lift keeps_attr
  keeps_new_dict keeps_getitem keeps_setitem keeps_invoke
  keeps_unpack_data keeps_data_loader : keeps.

Ltac keeps :=
  repeat first
    [ progress eauto with keeps
    | apply keeps_bind
    | intros [[? ?] ?] | intros ? ].

Lemma keeps_common_step batch nb : keeps_self (common_step oracle batch nb).
Proof. unfold common_step. keeps. Qed.

Lemma keeps_val_losses outputs : keeps_self (val_losses outputs : @M W _).
Proof. induction outputs as [|x outputs IH]; simpl; keeps. Qed.

#[local] Hint Resolve keeps_common_step keeps_val_losses : keeps.

(** C9. Running any method other than the constructor leaves every
    attribute of the adapter as it was; the constructor assigns them all
    from its arguments. *)
Theorem attributes_assigned_by_init_only :
  (∀ o st, self (run oracle tensor_mean o st).2 = self st)
  ∧ (∀ m o l tl vl sch cfg st,
       self (init m o l tl vl sch cfg st).2 =
         Build_System m o l tl (default VNone vl) (default VNone sch)
                      (default VNone cfg)).
Proof.
  split; [|done].
  intros o. change (keeps_self (run oracle tensor_mean o)).
  destruct o; simpl;
    unfold forward, training_step, validation_step, validation_end,
      configure_optimizers, train_dataloader, val_dataloader,
      on_save_checkpoint, on_batch_start, on_batch_end, on_epoch_start,
      on_epoch_end, tng_dataloader; keeps.
  destruct (is_not_none a); keeps.
Qed.

(** ** The two steps and the common step *)

Lemma training_step_unfold batch nb st :
  training_step oracle batch nb st =
    match common_step oracle batch nb st with
    | (Ok loss, st1) =>
        (tensorboard_logs ← new_dict {[ "train_loss" := loss ]};
         new_dict {[ "loss" := loss; "log" := tensorboard_logs ]}) st1
    | (Err e, st1) => (Err e, st1)
    end.
Proof.
  unfold training_step at 1, mbind at 1, M_bind at 1.
  by destruct (common_step oracle batch nb st) as [[loss|e] st1].
Qed.

Lemma validation_step_unfold batch nb st :
  validation_step oracle batch nb st =
    match common_step oracle batch nb st with
    | (Ok loss, st1) =>
        (Ok (VDict (fresh (dom (heap st1)))),
         State (self st1)
               (<[fresh (dom (heap st1)) := {[ "val_loss" := loss ]}]>
                  (heap st1))
               (calls st1) (world st1) (lazy st1))
    | (Err e, st1) => (Err e, st1)
    end.
Proof.
  unfold validation_step, mbind, M_bind.
  by destruct (common_step oracle batch nb st) as [[loss|e] st1].
Qed.

Lemma common_step_malformed batch nb st :
  length batch ≠ 2 → length batch ≠ 3 →
  common_step oracle batch nb st = (Err (malformed_batch (length batch)), st).
Proof.
  intros H2 H3. unfold common_step, mbind, M_bind.
  by rewrite unpack_data_other.
Qed.

(** X1. When the common step returns [loss], the validation step returns a
    new dictionary whose only entry is ['val_loss'] for [loss]; it invokes
    no collaborator beyond what the common step did and assigns no
    attribute. *)
Theorem validation_step_returns_loss batch nb st loss st1 :
  common_step oracle batch nb st = (Ok loss, st1) →
  ∃ d,
    validation_step oracle batch nb st =
      (Ok (VDict d),
       State (self st) (<[d := {[ "val_loss" := loss ]}]> (heap st1))
             (calls st1) (world st1) (lazy st))
    ∧ d ∉ dom (heap st1).
Proof.
  intros Hc. exists (fresh (dom (heap st1))). split; [|apply is_fresh].
  rewrite validation_step_unfold, Hc.
  apply common_step_inv in Hc
    as (i & t & a & st0 & est & w1 & w2 & _ & _ & _ & ->).
  reflexivity.
Qed.

(** X2. The training step and the validation step share the common step:
    from the same state and on the same batch, whatever the batch numbers,
    if the training step returns then the validation step returns too, the
    ['loss'] entry of the one is the ['val_loss'] entry of the other, and
    both leave the same record of invocations and the same collaborator
    state. *)
Theorem steps_share_loss batch nb nb' st xt st_t :
  training_step oracle batch nb st = (Ok xt, st_t) →
  ∃ lt lv loss st_v,
    xt = VDict lt
    ∧ validation_step oracle batch nb' st = (Ok (VDict lv), st_v)
    ∧ heap st_t !! lt ≫= (.!! "loss") = Some loss
    ∧ heap st_v !! lv ≫= (.!! "val_loss") = Some loss
    ∧ calls st_t = calls st_v ∧ world st_t = world st_v.
Proof.
  rewrite training_step_unfold.
  destruct (common_step oracle batch nb st) as [[loss|e] st1] eqn:Hc; [|done].
  intros [= <- <-].
  eexists _, (fresh (dom (heap st1))), loss, _. split; [done|].
  split.
  { rewrite validation_step_unfold.
    change (common_step oracle batch nb' st)
      with (common_step oracle batch nb st).
    by rewrite Hc. }
  simpl. rewrite !lookup_insert_eq. simpl. by rewrite !lookup_insert_eq.
Qed.

(** X3. A step raises exactly when the common step raises, and then with
    the same error and in the same state: no dictionary is built after a
    failed common step, and building the dictionaries never fails. *)
Theorem steps_fail_with_common_step batch nb st e st1 :
  (training_step oracle batch nb st = (Err e, st1)
     ↔ common_step oracle batch nb st = (Err e, st1))
  ∧ (validation_step oracle batch nb st = (Err e, st1)
     ↔ common_step oracle batch nb st = (Err e, st1)).
Proof.
  rewrite training_step_unfold, validation_step_unfold.
  destruct (common_step oracle batch nb st) as [[loss|e'] st']; by split.
Qed.

(** X4. On a batch that has neither two nor three elements the common
    step, the training step and the validation step all raise the
    malformed-batch error and leave the state as it is: the model is not
    called. *)
Theorem steps_reject_malformed_batch batch nb st :
  length batch ≠ 2 → length batch ≠ 3 →
  common_step oracle batch nb st = (Err (malformed_batch (length batch)), st)
  ∧ training_step oracle batch nb st
      = (Err (malformed_batch (length batch)), st)
  ∧ validation_step oracle batch nb st
      = (Err (malformed_batch (length batch)), st).
Proof.
  intros H2 H3.
  rewrite training_step_unfold, validation_step_unfold.
  by rewrite common_step_malformed.
Qed.

(** X5. When the call of the model raises, the common step raises the same
    error and the loss object is not asked: the call of the model is the
    only invocation recorded. *)
Theorem common_step_model_raises batch nb st inputs targets infos st1 e w1 :
  unpack_data batch st = (Ok (inputs, targets, infos), st1) →
  oracle (Invoke (model (self st)) None [inputs] []) (world st)
    = (Err e, w1) →
  common_step oracle batch nb st =
    (Err e,
     State (self st) (heap st1)
           (calls st ++ [Invoke (model (self st)) None [inputs] []]) w1
           (lazy st)).
Proof.
  intros Hu Hm. rewrite (common_step_unfold _ _ _ _ _ _ _ Hu).
  unfold model_call. by rewrite Hm.
Qed.

Lemma unpack_data_any_self data s s' h c (w : W) z :
  (unpack_data data (State s h c w z)).1
    = (unpack_data data (State s' h c w z)).1
  ∧ heap (unpack_data data (State s h c w z)).2
    = heap (unpack_data data (State s' h c w z)).2.
Proof.
  destruct (decide (length data = 2)) as [H2|H2].
  { apply length_two in H2 as (a & b & ->). by rewrite !unpack_data_pair. }
  destruct (decide (length data = 3)) as [H3|H3].
  { apply length_three in H3 as (a & b & x & ->).
    by rewrite !unpack_data_triple. }
  by rewrite !unpack_data_other.
Qed.

(** X6. The common step reads the model and the loss object and no other
    attribute: two adapters with the same model and the same loss object
    return the same loss, or raise the same error, and leave the same
    dictionaries, invocations and collaborator state, whatever their
    optimizers, schedulers, loaders and configurations. *)
Theorem common_step_reads_model_and_loss batch nb s s' h c (w : W) z :
  model s = model s' → loss_class s = loss_class s' →
  (common_step oracle batch nb (State s h c w z)).1
    = (common_step oracle batch nb (State s' h c w z)).1
  ∧ heap (common_step oracle batch nb (State s h c w z)).2
    = heap (common_step oracle batch nb (State s' h c w z)).2
  ∧ calls (common_step oracle batch nb (State s h c w z)).2
    = calls (common_step oracle batch nb (State s' h c w z)).2
  ∧ world (common_step oracle batch nb (State s h c w z)).2
    = world (common_step oracle batch nb (State s' h c w z)).2.
Proof.
  intros Hm Hl.
  destruct (unpack_data_any_self batch s s' h c w z) as [Hr Hh].
  destruct (unpack_data batch (State s h c w z)) as [[[[i t] a]|e] st1] eqn:Hu;
    destruct (unpack_data batch (State s' h c w z)) as [r' st1'] eqn:Hu';
    simpl in Hr, Hh; subst r'.
  - rewrite (common_step_unfold _ _ _ _ _ _ _ Hu),
      (common_step_unfold _ _ _ _ _ _ _ Hu').
    unfold model_call, compute_call. simpl. rewrite <- Hm, <- Hl.
    destruct (oracle _ w) as [[est|e] w1]; [|done].
    destruct (oracle _ w1) as [[loss|e] w2]; done.
  - destruct (unpack_data_frame _ _ _ _ Hu) as (_ & Hc1 & Hw1).
    destruct (unpack_data_frame _ _ _ _ Hu') as (_ & Hc2 & Hw2).
    unfold common_step, mbind, M_bind. rewrite Hu, Hu'. simpl in *.
    by rewrite Hc1, Hc2, Hw1, Hw2.
Qed.

(** ** What the methods do to the dictionaries *)

Lemma grows_ret {A} (a : A) : grows (mret a : @M W A).
Proof. by intros st. Qed.

Lemma grows_bind {A B} (m : @M W A) (k : A → @M W B) :
  grows m → (∀ a, grows (k a)) → grows (m ≫= k).
Proof.
  intros Hm Hk st. unfold mbind, M_bind. specialize (Hm st).
  destruct (m st) as [[a|e] st1]; simpl in *; [|done].
  etrans; [exact Hm|apply Hk].
Qed.

Lemma grows_raise {A} e : grows (raise e : @M W A).
Proof. by intros st. Qed.

Lemma grows_lift {A} (r : result A) : grows (lift r : @M W A).
Proof. by intros st. Qed.

Lemma grows_attr f : grows (attr f : @M W value).
Proof. by intros st. Qed.

Lemma grows_new_dict d : grows (new_dict d : @M W value).
Proof. intros st. simpl. apply insert_subseteq, fresh_unused. Qed.

Lemma grows_getitem v k : grows (getitem v k : @M W value).
Proof.
  intros st. unfold getitem. destruct v; try done.
  destruct (heap st !! l) as [d|]; [|done]. by destruct (d !! k).
Qed.

Lemma grows_invoke i : grows (invoke oracle i).
Proof. intros st. unfold invoke. by destruct (oracle i (world st)). Qed.

Lemma grows_unpack_data data : grows (unpack_data data : @M W _).
Proof.
  intros st. destruct (decide (length data = 2)) as [H2|H2].
  { apply length_two in H2 as (a & b & ->). rewrite unpack_data_pair.
    apply insert_subseteq, fresh_unused. }
  destruct (decide (length data = 3)) as [H3|H3].
  { apply length_three in H3 as (a & b & c & ->).
    by rewrite unpack_data_triple. }
  by rewrite unpack_data_other.
Qed.

Lemma grows_data_loader name (fn : @M W value) :
  grows fn → grows (data_loader name fn).
Proof.
  intros Hfn st. unfold data_loader. specialize (Hfn st).
  destruct (lazy st !! _); [done|]. by destruct (fn st) as [[v|e] st1].
Qed.

Create HintDb grows.

#[local] Hint Resolve grows_ret grows_raise grows_lift grows_attr
  grows_new_dict grows_getitem grows_invoke grows_unpack_data
  grows_data_loader : grows.

Ltac grows :=
  repeat first
    [ progress eauto with grows
    | apply grows_bind
    | match goal with
      | |- ∀ _ : (_ * _ * _)%type, _ => intros [[? ?] ?]
      | |- ∀ _, grows _ => intros ?
      end ].

Lemma grows_common_step batch nb : grows (common_step oracle batch nb).
Proof. unfold common_step. grows. Qed.

Lemma grows_val_losses outputs : grows (val_losses outputs : @M W _).
Proof. induction outputs as [|x outputs IH]; simpl; grows. Qed.

#[local] Hint Resolve grows_common_step grows_val_losses : grows.

Lemma run_grows o :
  (∀ c, o ≠ OnSaveCheckpoint c) → grows (run oracle tensor_mean o).
Proof.
  intros Ho. destruct o; try (by destruct (Ho checkpoint)); simpl;
    unfold forward, training_step, validation_step, validation_end,
      configure_optimizers, train_dataloader, val_dataloader,
      on_batch_start, on_batch_end, on_epoch_start, on_epoch_end,
      tng_dataloader; grows.
  destruct (is_not_none a); grows.
Qed.

Lemma run_keeps_self o : keeps_self (run oracle tensor_mean o).
Proof.
  destruct o; simpl;
    unfold forward, training_step, validation_step, validation_end,
      configure_optimizers, train_dataloader, val_dataloader,
      on_save_checkpoint, on_batch_start, on_batch_end, on_epoch_start,
      on_epoch_end, tng_dataloader; keeps.
  destruct (is_not_none a); keeps.
Qed.

Lemma on_save_checkpoint_entry c st l d :
  heap st !! l = Some d →
  ∃ d', heap (on_save_checkpoint c st).2 !! l = Some d'
    ∧ (d' = d ∨ (c = VDict l
                 ∧ d' = <["training_config" := config (self st)]> d)).
Proof.
  intros Hl. unfold on_save_checkpoint, mbind, M_bind, attr, setitem. simpl.
  destruct c as [| | | | | |l0|]; simpl; eauto.
  destruct (heap st !! l0) as [d0|] eqn:Hl0; simpl; eauto.
  destruct (decide (l0 = l)) as [->|Hne].
  - rewrite lookup_insert_eq. simplify_eq. eauto.
  - rewrite lookup_insert_ne by done. eauto.
Qed.

Lemma run_entry o st l d :
  heap st !! l = Some d →
  ∃ d', heap (run oracle tensor_mean o st).2 !! l = Some d'
    ∧ (d' = d ∨ (o = OnSaveCheckpoint (VDict l)
                 ∧ d' = <["training_config" := config (self st)]> d)).
Proof.
  intros Hl.
  assert ((∃ c, o = OnSaveCheckpoint c) ∨ (∀ c, o ≠ OnSaveCheckpoint c))
    as [[c ->]|Ho]
    by (destruct o; first [by left; eauto|right; intros ?; discriminate]).
  - destruct (on_save_checkpoint_entry c st l d Hl) as (d' & Hd' & Hor).
    exists d'. split; [done|]. destruct Hor as [->|[-> ->]]; eauto.
  - exists d. split; [|by left].
    eapply lookup_weaken; [exact Hl|]. by apply run_grows.
Qed.

(** X7. No method removes a dictionary or changes an entry under a key
    other than ['training_config'], and a dictionary is changed at all only
    when it is the checkpoint passed to [on_save_checkpoint]: the batches'
    infos and the results returned earlier are never written to. *)
Theorem dictionaries_survive o st l d :
  heap st !! l = Some d →
  ∃ d', heap (run oracle tensor_mean o st).2 !! l = Some d'
    ∧ (∀ k, k ≠ "training_config" → d' !! k = d !! k)
    ∧ (o ≠ OnSaveCheckpoint (VDict l) → d' = d).
Proof.
  intros Hl. destruct (run_entry o st l d Hl) as (d' & Hd' & Hor).
  exists d'. split; [done|]. destruct Hor as [->|[-> ->]].
  - done.
  - split; [|done]. intros k Hk. by rewrite lookup_insert_ne.
Qed.

(** ** What the methods ask of the collaborators *)

Lemma quiet_ret {A} (a : A) : quiet (mret a : @M W A).
Proof. by intros st. Qed.

Lemma quiet_bind {A B} (m : @M W A) (k : A → @M W B) :
  quiet m → (∀ a, quiet (k a)) → quiet (m ≫= k).
Proof.
  intros Hm Hk st. unfold mbind, M_bind. specialize (Hm st).
  destruct (m st) as [[a|e] st1]; simpl in *; [|done].
  destruct (Hk a st1) as [-> ->]. done.
Qed.

Lemma quiet_raise {A} e : quiet (raise e : @M W A).
Proof. by intros st. Qed.

Lemma quiet_lift {A} (r : result A) : quiet (lift r : @M W A).
Proof. by intros st. Qed.

Lemma quiet_attr f : quiet (attr f : @M W value).
Proof. by intros st. Qed.

Lemma quiet_new_dict d : quiet (new_dict d : @M W value).
Proof. by intros st. Qed.

Lemma quiet_getitem v k : quiet (getitem v k : @M W value).
Proof.
  intros st. unfold getitem. destruct v; try done.
  destruct (heap st !! l) as [d|]; [|done]. by destruct (d !! k).
Qed.

Lemma quiet_setitem v k x : quiet (setitem v k x : @M W unit).
Proof.
  intros st. unfold setitem. destruct v; try done.
  by destruct (heap st !! l).
Qed.

Lemma quiet_unpack_data data : quiet (unpack_data data : @M W _).
Proof.
  intros st. destruct (unpack_data data st) as [r st1] eqn:Hu.
  by destruct (unpack_data_frame _ _ _ _ Hu) as (_ & ? & ?).
Qed.

Lemma quiet_data_loader name (fn : @M W value) :
  quiet fn → quiet (data_loader name fn).
Proof.
  intros Hfn st. unfold data_loader. specialize (Hfn st).
  destruct (lazy st !! _); [done|]. by destruct (fn st) as [[v|e] st1].
Qed.

Create HintDb quiet.

#[local] Hint Resolve quiet_ret quiet_raise quiet_lift quiet_attr
  quiet_new_dict quiet_getitem quiet_setitem quiet_unpack_data
  quiet_data_loader : quiet.

Ltac quiet :=
  repeat first
    [ progress eauto with quiet
    | apply quiet_bind
    | match goal with
      | |- ∀ _ : (_ * _ * _)%type, _ => intros [[? ?] ?]
      | |- ∀ _, quiet _ => intros ?
      end ].

Lemma quiet_val_losses outputs : quiet (val_losses outputs : @M W _).
Proof. induction outputs as [|x outputs IH]; simpl; quiet. Qed.

#[local] Hint Resolve quiet_val_losses : quiet.

Lemma run_quiet o : is_step o = false → quiet (run oracle tensor_mean o).
Proof.
  destruct o; try done; intros _; simpl;
    unfold validation_end, configure_optimizers, train_dataloader,
      val_dataloader, on_save_checkpoint, on_batch_start, on_batch_end,
      on_epoch_start, on_epoch_end, tng_dataloader; quiet.
  destruct (is_not_none a); quiet.
Qed.

Lemma common_step_calls batch nb st :
  ∃ new, calls (common_step oracle batch nb st).2 = (calls st ++ new)%list
    ∧ Forall (adapter_call st) new ∧ (length new ≤ 2)%nat.
Proof.
  destruct (unpack_data batch st) as [[[[i t] a]|e] st1] eqn:Hu.
  - rewrite (common_step_unfold _ _ _ _ _ _ _ Hu).
    assert (adapter_call st (model_call st i)) as Hm by (left; eauto).
    destruct (oracle _ (world st)) as [[est|e] w1].
    + assert (adapter_call st (compute_call st t est a)) as Hc
        by (right; eauto).
      destruct (oracle _ w1) as [r w2]. simpl.
      eexists [_; _]. split; [done|]. split; [|simpl; lia].
      by repeat constructor.
    + eexists [_]. split; [done|]. split; [|simpl; lia].
      by repeat constructor.
  - destruct (unpack_data_frame _ _ _ _ Hu) as (_ & Hc & _).
    unfold common_step, mbind, M_bind. rewrite Hu. simpl.
    exists []. rewrite app_nil_r. split; [done|]. split; [|simpl; lia].
    constructor.
Qed.

(** X8. Whatever method runs, the adapter reaches its collaborators at
    most twice, and only by calling the model, by invoking the model's
    [forward] or by invoking the loss object's [compute]; the methods other
    than [forward] and the three steps reach no collaborator at all.  So
    nothing is ever invoked on a loss value, on the optimizer, on the
    scheduler or on a loader. *)
Theorem adapter_calls_model_and_loss_only o st :
  ∃ new,
    calls (run oracle tensor_mean o st).2 = (calls st ++ new)%list
    ∧ Forall (adapter_call st) new
    ∧ (length new ≤ 2)%nat
    ∧ (is_step o = false →
       new = [] ∧ world (run oracle tensor_mean o st).2 = world st).
Proof.
  destruct (is_step o) eqn:Hs.
  - destruct o; try done; simpl.
    + unfold forward, mbind, M_bind, attr, invoke. simpl.
      destruct (oracle _ (world st)) as [r w1]. simpl.
      eexists [_]. split; [done|]. split; [|split; [simpl; lia|done]].
      constructor; [left; split; [done|by right]|constructor].
    + destruct (common_step_calls batch batch_nb st) as (new & ? & ? & ?).
      by exists new.
    + destruct (common_step_calls batch batch_nb st) as (new & Hc & ? & ?).
      exists new. rewrite training_step_unfold.
      destruct (common_step oracle batch batch_nb st) as [[loss|e] st1];
        done.
    + destruct (common_step_calls batch batch_nb st) as (new & Hc & ? & ?).
      exists new. rewrite validation_step_unfold.
      destruct (common_step oracle batch batch_nb st) as [[loss|e] st1];
        done.
  - destruct (run_quiet o Hs st) as [Hc Hw].
    exists []. rewrite app_nil_r. split; [done|]. split; [constructor|].
    split; [simpl; lia|done].
Qed.

(** ** Failures of the end of validation *)

Lemma val_losses_pure outputs st : (val_losses outputs st).2 = st.
Proof.
  induction outputs as [|x outputs IH]; [done|].
  simpl. unfold mbind, M_bind, getitem.
  destruct x as [| | | | | |l|]; try done.
  destruct (heap st !! l) as [d|]; [|done].
  destruct (d !! "val_loss") as [v|]; [|done].
  destruct (val_losses outputs st) as [[ls|e] st1]; simpl in *; by subst.
Qed.

Lemma val_losses_first_bad pre x post e st :
  Forall (has_val_loss st) pre →
  getitem x "val_loss" st = (Err e, st) →
  val_losses (pre ++ x :: post) st = (Err e, st).
Proof.
  intros Hpre Hx.
  induction Hpre as [|y pre (l & d & v & -> & Hl & Hv) _ IH]; simpl.
  - unfold mbind, M_bind. by rewrite Hx.
  - unfold mbind, M_bind, getitem. by rewrite Hl, Hv, IH.
Qed.

(** X9. When [validation_end] raises, it has changed nothing: the two
    dictionaries are built only after the average is there. *)
Theorem validation_end_fails_clean outputs st e st1 :
  validation_end tensor_mean outputs st = (Err e, st1) → st1 = st.
Proof.
  unfold validation_end, mbind, M_bind, lift.
  pose proof (val_losses_pure outputs st) as Hp.
  destruct (val_losses outputs st) as [[ls|e0] st0]; simpl in Hp; subst st0.
  - destruct (Torch.stack ls) as [t|e0]; [|by intros [= _ <-]].
    destruct (tensor_mean t) as [avg|e0]; [done|]. by intros [= _ <-].
  - by intros [= _ <-].
Qed.

(** X10. The results are read in order and the first one without a usable
    ['val_loss'] decides: when the results before it all have that entry, a
    dictionary without the key makes [validation_end] raise
    [KeyError('val_loss')], and a value that is no dictionary (None, a
    number, a string, a tuple, a list) makes it raise a [TypeError]; the
    results after it are not looked at and the state is left as it is. *)
Theorem validation_end_first_bad_result pre x post st :
  Forall (has_val_loss st) pre →
  ((∃ l d, x = VDict l ∧ heap st !! l = Some d ∧ d !! "val_loss" = None) →
     validation_end tensor_mean (pre ++ x :: post) st
       = (Err (KeyError "val_loss"), st))
  ∧ (no_items x →
     ∃ msg, validation_end tensor_mean (pre ++ x :: post) st
              = (Err (TypeError msg), st)).
Proof.
  intros Hpre. split.
  - intros (l & d & -> & Hl & Hd).
    unfold validation_end, mbind, M_bind.
    rewrite (val_losses_first_bad pre (VDict l) post (KeyError "val_loss"));
      [done|done|].
    unfold getitem. by rewrite Hl, Hd.
  - intros Hx. eexists. unfold validation_end, mbind, M_bind.
    rewrite (val_losses_first_bad pre x post
               (TypeError "object is not subscriptable")); [done|done|].
    by destruct x.
Qed.

(** ** Saving a checkpoint again, and later *)

(** X11. Saving into the same checkpoint a second time returns what the
    first save returned and changes nothing more. *)
Theorem on_save_checkpoint_idempotent checkpoint st :
  on_save_checkpoint checkpoint (on_save_checkpoint checkpoint st).2
    = on_save_checkpoint checkpoint st.
Proof.
  unfold on_save_checkpoint, mbind, M_bind, attr, setitem. simpl.
  destruct checkpoint as [| | | | | |l|]; try done.
  destruct (heap st !! l) as [d|] eqn:Hl; simpl; [|by rewrite Hl].
  rewrite lookup_insert_eq. simpl. by rewrite !insert_insert_eq.
Qed.

Lemma run_all_self os st : self (run_all oracle tensor_mean os st) = self st.
Proof.
  revert st. induction os as [|o os IH]; intros st; [done|].
  simpl. rewrite IH. apply run_keeps_self.
Qed.

Lemma run_all_entry os st l d k v :
  Forall (λ o, is_step o = false) os →
  heap st !! l = Some d → d !! k = Some v →
  (k = "training_config" → v = config (self st)) →
  ∃ d', heap (run_all oracle tensor_mean os st) !! l = Some d'
        ∧ d' !! k = Some v.
Proof.
  intros Hos. revert st d.
  induction Hos as [|o os _ _ IH]; intros st d Hl Hk Hcfg; [eauto|].
  simpl. destruct (run_entry o st l d Hl) as (d' & Hd' & Hor).
  apply (IH _ d' Hd').
  - destruct Hor as [->|[_ ->]]; [done|].
    destruct (decide (k = "training_config")) as [->|Hne].
    + rewrite lookup_insert_eq. by rewrite Hcfg.
    + by rewrite lookup_insert_ne.
  - by rewrite run_keeps_self.
Qed.

(** ** The accessors and their decorator *)

Lemma keeps_lazy_ret {A} (a : A) : keeps_lazy (mret a : @M W A).
Proof. by intros st. Qed.

Lemma keeps_lazy_bind {A B} (m : @M W A) (k : A → @M W B) :
  keeps_lazy m → (∀ a, keeps_lazy (k a)) → keeps_lazy (m ≫= k).
Proof.
  intros Hm Hk st. unfold mbind, M_bind. specialize (Hm st).
  destruct (m st) as [[a|e] st1]; simpl in *; [|done].
  by rewrite Hk.
Qed.

Lemma keeps_lazy_raise {A} e : keeps_lazy (raise e : @M W A).
Proof. by intros st. Qed.

Lemma keeps_lazy_lift {A} (r : result A) : keeps_lazy (lift r : @M W A).
Proof. by intros st. Qed.

Lemma keeps_lazy_attr f : keeps_lazy (attr f : @M W value).
Proof. by intros st. Qed.

Lemma keeps_lazy_new_dict d : keeps_lazy (new_dict d : @M W value).
Proof. by intros st. Qed.

Lemma keeps_lazy_getitem v k : keeps_lazy (getitem v k : @M W value).
Proof.
  intros st. unfold getitem. destruct v; try done.
  destruct (heap st !! l) as [d|]; [|done]. by destruct (d !! k).
Qed.

Lemma keeps_lazy_setitem v k x : keeps_lazy (setitem v k x : @M W unit).
Proof.
  intros st. unfold setitem. destruct v; try done.
  by destruct (heap st !! l).
Qed.

Lemma keeps_lazy_invoke i : keeps_lazy (invoke oracle i).
Proof. intros st. unfold invoke. by destruct (oracle i (world st)). Qed.

Lemma keeps_lazy_unpack_data data : keeps_lazy (unpack_data data : @M W _).
Proof. intros st. apply unpack_data_lazy. Qed.

Create HintDb keeps_lazy.

#[local] Hint Resolve keeps_lazy_ret keeps_lazy_raise keeps_lazy_lift
  keeps_lazy_attr keeps_lazy_new_dict keeps_lazy_getitem keeps_lazy_setitem
  keeps_lazy_invoke keeps_lazy_unpack_data : keeps_lazy.

Ltac keeps_lazy :=
  repeat first
    [ progress eauto with keeps_lazy
    | apply keeps_lazy_bind
    | match goal with
      | |- ∀ _ : (_ * _ * _)%type, _ => intros [[? ?] ?]
      | |- ∀ _, keeps_lazy _ => intros ?
      end ].

Lemma keeps_lazy_common_step batch nb :
  keeps_lazy (common_step oracle batch nb).
Proof. unfold common_step. keeps_lazy. Qed.

Lemma keeps_lazy_val_losses outputs :
  keeps_lazy (val_losses outputs : @M W _).
Proof. induction outputs as [|x outputs IH]; simpl; keeps_lazy. Qed.

#[local] Hint Resolve keeps_lazy_common_step keeps_lazy_val_losses
  : keeps_lazy.

Lemma run_keeps_lazy o :
  o ≠ TrainDataloader → o ≠ ValDataloader → o ≠ TngDataloader →
  keeps_lazy (run oracle tensor_mean o).
Proof.
  intros H1 H2 H3. destruct o; try done; simpl;
    unfold forward, training_step, validation_step, validation_end,
      configure_optimizers, on_save_checkpoint, on_batch_start,
      on_batch_end, on_epoch_start, on_epoch_end; keeps_lazy.
  destruct (is_not_none a); keeps_lazy.
Qed.

Lemma train_dataloader_ok st :
  lazy_ok st →
  (train_dataloader st).1 = Ok (train_loader (self st))
  ∧ lazy_ok (train_dataloader st).2.
Proof.
  intros Hok. unfold train_dataloader, data_loader.
  change ("_lazy_" +:+ "train_dataloader") with "_lazy_train_dataloader".
  destruct (lazy st !! "_lazy_train_dataloader") as [v|] eqn:Hz; simpl.
  - split; [|done]. destruct Hok as (Ht & _). by rewrite (Ht v Hz).
  - rewrite andb_false_r. split; [done|].
    destruct Hok as (Ht & Hv & Hn). repeat split; simpl; intros v.
    + rewrite lookup_insert_eq. by intros [= <-].
    + rewrite lookup_insert_ne by done. apply Hv.
    + rewrite lookup_insert_ne by done. apply Hn.
Qed.

Lemma val_dataloader_ok st :
  lazy_ok st →
  (val_dataloader st).1 = Ok (as_loader_list (val_loader (self st)))
  ∧ lazy_ok (val_dataloader st).2.
Proof.
  intros Hok. unfold val_dataloader, data_loader.
  change ("_lazy_" +:+ "val_dataloader") with "_lazy_val_dataloader".
  destruct (lazy st !! "_lazy_val_dataloader") as [v|] eqn:Hz; simpl.
  - split; [|done]. destruct Hok as (_ & Hv & _). by rewrite (Hv v Hz).
  - rewrite andb_true_r. fold (as_loader_list (val_loader (self st))).
    split; [done|].
    destruct Hok as (Ht & Hv & Hn). repeat split; simpl; intros v.
    + rewrite lookup_insert_ne by done. apply Ht.
    + rewrite lookup_insert_eq. by intros [= <-].
    + rewrite lookup_insert_ne by done. apply Hn.
Qed.

Lemma tng_dataloader_ok st :
  lazy_ok st →
  (tng_dataloader st).1 = Ok VNone ∧ lazy_ok (tng_dataloader st).2.
Proof.
  intros Hok. unfold tng_dataloader, data_loader.
  change ("_lazy_" +:+ "tng_dataloader") with "_lazy_tng_dataloader".
  destruct (lazy st !! "_lazy_tng_dataloader") as [v|] eqn:Hz; simpl.
  - split; [|done]. destruct Hok as (_ & _ & Hn). by rewrite (Hn v Hz).
  - split; [done|].
    destruct Hok as (Ht & Hv & Hn). repeat split; simpl; intros v.
    + rewrite lookup_insert_ne by done. apply Ht.
    + rewrite lookup_insert_ne by done. apply Hv.
    + rewrite lookup_insert_eq. by intros [= <-].
Qed.

Lemma run_lazy_ok o st : lazy_ok st → lazy_ok (run oracle tensor_mean o st).2.
Proof.
  intros Hok. destruct o;
    try (by apply train_dataloader_ok);
    try (by apply val_dataloader_ok);
    try (by apply tng_dataloader_ok);
    (unfold lazy_ok; rewrite run_keeps_lazy by done;
     by rewrite run_keeps_self).
Qed.

Lemma run_all_lazy_ok os st :
  lazy_ok st → lazy_ok (run_all oracle tensor_mean os st).
Proof.
  revert st. induction os as [|o os IH]; intros st Hok; [done|].
  simpl. by apply IH, run_lazy_ok.
Qed.

(** X12. The accessors answer from the constructor's arguments for ever.
    On an instance that has no attribute of the decorator yet, after
    construction and any sequence of method calls, failed or not,
    [train_dataloader] returns the training loader given,
    [val_dataloader] returns the validation loader given put in a list
    (as it is when it is a list already, [None] when there is none),
    [tng_dataloader] returns [None], and [configure_optimizers] returns
    what it returned right after construction. *)
Theorem accessors_answer_from_construction m o l tl vl sch cfg os st :
  lazy st = ∅ →
  let st0 := (init m o l tl vl sch cfg st).2 in
  let st1 := run_all oracle tensor_mean os st0 in
  (train_dataloader st1).1 = Ok tl
  ∧ (val_dataloader st1).1 = Ok (as_loader_list (default VNone vl))
  ∧ (tng_dataloader st1).1 = Ok VNone
  ∧ (configure_optimizers st1).1 = (configure_optimizers st0).1.
Proof.
  intros Hz st0 st1.
  pose proof (run_all_self os st0) as Hs. fold st1 in Hs.
  assert (lazy_ok st1) as Hok.
  { apply run_all_lazy_ok. unfold lazy_ok, st0. simpl. rewrite Hz.
    by repeat split; intros v; rewrite lookup_empty. }
  destruct (train_dataloader_ok st1 Hok) as [-> _].
  destruct (val_dataloader_ok st1 Hok) as [-> _].
  destruct (tng_dataloader_ok st1 Hok) as [-> _].
  rewrite Hs. split; [done|]. split; [done|]. split; [done|].
  unfold configure_optimizers, attr, mbind, M_bind. simpl. rewrite Hs. simpl.
  destruct (is_not_none (default VNone sch)); simpl; by rewrite ?Hs.
Qed.

(** X13. Once a checkpoint is saved, its ['training_config'] entry is the
    configuration after any sequence of calls of the methods that reach no
    collaborator (every method but [forward] and the three steps), later
    saves into the same or another checkpoint included. *)
Theorem saved_config_persists l d os st :
  heap st !! l = Some d →
  Forall (λ o, is_step o = false) os →
  let st1 :=
    run_all oracle tensor_mean os (on_save_checkpoint (VDict l) st).2 in
  getitem (VDict l) "training_config" st1 = (Ok (config (self st)), st1).
Proof.
  intros Hl Hos st1.
  destruct (run_all_entry os (on_save_checkpoint (VDict l) st).2 l
              (<["training_config" := config (self st)]> d)
              "training_config" (config (self st)) Hos)
    as (d' & Hd' & Hk).
  - unfold on_save_checkpoint, mbind, M_bind, attr, setitem. simpl.
    rewrite Hl. simpl. apply lookup_insert_eq.
  - apply lookup_insert_eq.
  - intros _. unfold on_save_checkpoint, mbind, M_bind, attr, setitem. simpl.
    by rewrite Hl.
  - fold st1 in Hd'. unfold getitem. by rewrite Hd', Hk.
Qed.

(** X14. A result that holds a loss under ['val_loss'] still holds it after
    any sequence of calls of the methods that reach no collaborator: the
    end of validation, the saving of checkpoints, the accessors and the
    hooks leave the results of the validation steps usable by
    [validation_end]. *)
Theorem validation_results_stay os st x t :
  Forall (λ o, is_step o = false) os →
  holds_loss st x t → holds_loss (run_all oracle tensor_mean os st) x t.
Proof.
  intros Hos (l & d & -> & Hl & Hd).
  destruct (run_all_entry os st l d "val_loss" (VTensor t) Hos Hl Hd)
    as (d' & Hd' & Hk); [done|].
  by exists l, d'.
Qed.

(** ** From the validation steps to the end of validation *)

Lemma stack_two t1 t2 :
  shape t2 = shape t1 →
  Torch.stack [VTensor t1; VTensor t2]
    = Ok (Tensor (2 :: shape t1) (data t1 ++ data t2)).
Proof.
  intros Hs. unfold Torch.stack. simpl. unfold Torch.same_shape.
  rewrite bool_decide_true by done. simpl. by rewrite app_nil_r.
Qed.


(** ** The model called and the model's forward *)

(** X16. When calling the model and invoking its [forward] method answer
    the same on the inputs of the batch, the common step returns what the
    loss object's [compute] answers on [model.forward(inputs)], and leaves
    the same dictionaries and collaborator state. *)
Theorem common_step_agrees_with_forward batch nb st inputs targets infos st1 :
  unpack_data batch st = (Ok (inputs, targets, infos), st1) →
  oracle (Invoke (model (self st)) None [inputs] []) (world st)
    = oracle (Invoke (model (self st)) (Some "forward") [inputs] [])
             (world st) →
  (common_step oracle batch nb st).1
    = (common_step_via_forward oracle batch nb st).1
  ∧ heap (common_step oracle batch nb st).2
    = heap (common_step_via_forward oracle batch nb st).2
  ∧ world (common_step oracle batch nb st).2
    = world (common_step_via_forward oracle batch nb st).2.
Proof.
  intros Hu Heq. destruct (unpack_data_frame _ _ _ _ Hu) as (Hs & Hc & Hw).
  unfold common_step, common_step_via_forward, mbind, M_bind.
  rewrite Hu. unfold attr, invoke. simpl. rewrite Hs, Hw, Heq. clear Heq.
  destruct (oracle _ (world st)) as [[est|e] w1]; simpl; [|done].
  destruct (oracle _ w1) as [[loss|e] w2]; done.
Qed.

(** X17. On a batch of two elements the loss object still receives an
    [infos]: a dictionary that did not exist before the step, that is
    empty when [compute] is invoked and that the adapter leaves empty. *)
Theorem common_step_passes_empty_infos inputs targets nb st est w1 r w2 :
  oracle (Invoke (model (self st)) None [inputs] []) (world st)
    = (Ok est, w1) →
  oracle (Invoke (loss_class (self st)) (Some "compute") [targets; est]
                 [("infos", VDict (fresh (dom (heap st))))]) w1 = (r, w2) →
  ∃ l st2,
    common_step oracle [inputs; targets] nb st = (r, st2)
    ∧ (l ∉ dom (heap st))
    ∧ heap st2 = <[l := ∅]> (heap st)
    ∧ last (calls st2)
      = Some (Invoke (loss_class (self st)) (Some "compute") [targets; est]
                     [("infos", VDict l)])
    ∧ world st2 = w2.
Proof.
  intros Hm Hl. exists (fresh (dom (heap st))). eexists. split.
  - rewrite (common_step_unfold _ _ _ _ _ _ _
               (unpack_data_pair inputs targets st)).
    unfold model_call, compute_call. rewrite Hm, Hl. by destruct r.
  - simpl. split; [apply is_fresh|]. split; [done|]. split; [|done].
    by rewrite last_app.
Qed.

End AdapterFacts.

(** * The statements at concrete inputs *)

Import Fixtures.

Lemma unpack_data_two_three_witness :
  (∃ inputs targets l,
     [VInt 1; VInt 2] = [inputs; targets] ∧
     unpack_data [VInt 1; VInt 2] empty_state =
       (Ok (inputs, targets, VDict l),
        State system (<[l := ∅]> ∅) [] tt ∅))
  ∧ (∃ inputs targets infos,
       [VInt 1; VInt 2; VStr "id"] = [inputs; targets; infos] ∧
       unpack_data [VInt 1; VInt 2; VStr "id"] empty_state
         = (Ok (inputs, targets, infos), empty_state)).
Proof.
  split.
  - apply (proj1 (unpack_data_two_three [VInt 1; VInt 2] empty_state)).
    reflexivity.
  - apply (proj2 (unpack_data_two_three [VInt 1; VInt 2; VStr "id"]
                    empty_state)).
    reflexivity.
Defined.

Lemma unpack_data_fails_iff_witness :
  unpack_data [VInt 1] empty_state =
    (Err (ValueError
            "Expected DataLoader output to have 2 or 3 elements. Received 1 elements"),
     empty_state).
Proof.
  apply (proj2 (unpack_data_fails_iff [VInt 1] empty_state)); simpl; lia.
Defined.

Example unpack_data_none :
  (@unpack_data unit [] empty_state).1 =
    Err (ValueError
           "Expected DataLoader output to have 2 or 3 elements. Received 0 elements").
Proof. reflexivity. Qed.

Example unpack_data_four :
  (@unpack_data unit [VInt 1; VInt 2; VInt 3; VInt 4] empty_state).1 =
    Err (ValueError
           "Expected DataLoader output to have 2 or 3 elements. Received 4 elements").
Proof. reflexivity. Qed.

(** C1 as stated fails: on a model whose call differs from its [forward]
    method, the common step does not return what [compute] answers on
    [model.forward(inputs)]. *)
Lemma common_step_not_via_forward :
  (common_step hooked [VInt 1; VInt 2] 0 empty_state).1
  ≠ (common_step_via_forward hooked [VInt 1; VInt 2] 0 empty_state).1.
Proof. vm_compute. discriminate. Qed.

Example common_step_hooked :
  (common_step hooked [VInt 1; VInt 2] 0 empty_state).1
    = Ok (VTuple [VStr "hook"; VInt 1])
  ∧ (common_step_via_forward hooked [VInt 1; VInt 2] 0 empty_state).1
    = Ok (VInt 1).
Proof. split; reflexivity. Qed.

Lemma common_step_calls_model_witness :
  common_step hooked [VInt 1; VInt 2; VStr "id"] 0 empty_state =
    (Ok (VTuple [VStr "hook"; VInt 1]),
     State system ∅
           [Invoke (VObj 1) None [VInt 1] [];
            Invoke (VObj 3) (Some "compute")
                   [VInt 2; VTuple [VStr "hook"; VInt 1]]
                   [("infos", VStr "id")]] tt ∅).
Proof.
  apply (common_step_calls_model hooked [VInt 1; VInt 2; VStr "id"] 0
           empty_state (VInt 1) (VInt 2) (VStr "id") empty_state
           (VTuple [VStr "hook"; VInt 1]) tt
           (Ok (VTuple [VStr "hook"; VInt 1])) tt);
    reflexivity.
Defined.

Lemma training_step_returns_loss_witness :
  ∃ logs d,
    training_step hooked [VInt 1; VInt 2; VStr "id"] 0 empty_state =
      (Ok (VDict d),
       State system
             (<[d := {[ "loss" := VTuple [VStr "hook"; VInt 1];
                        "log" := VDict logs ]}]>
                (<[logs := {[ "train_loss" := VTuple [VStr "hook"; VInt 1] ]}]>
                   ∅))
             [Invoke (VObj 1) None [VInt 1] [];
              Invoke (VObj 3) (Some "compute")
                     [VInt 2; VTuple [VStr "hook"; VInt 1]]
                     [("infos", VStr "id")]] tt ∅)
    ∧ d ≠ logs.
Proof.
  destruct (training_step_returns_loss hooked [VInt 1; VInt 2; VStr "id"] 0
              empty_state (VTuple [VStr "hook"; VInt 1])
              (State system ∅
                 [Invoke (VObj 1) None [VInt 1] [];
                  Invoke (VObj 3) (Some "compute")
                         [VInt 2; VTuple [VStr "hook"; VInt 1]]
                         [("infos", VStr "id")]] tt ∅) eq_refl)
    as (logs & d & Hrun & _ & _ & Hne & _).
  exists logs, d. split; [exact Hrun|exact Hne].
Defined.

Lemma configure_optimizers_returns_witness :
  (let st1 := (@init unit (VObj 1) (VObj 2) (VObj 3) (VObj 4) None
                 (Some (VObj 5)) None empty_state).2 in
   configure_optimizers st1 = (Ok (VTuple [VObj 2; VObj 5]), st1))
  ∧ (let st1 := (@init unit (VObj 1) (VObj 2) (VObj 3) (VObj 4) None
                   None None empty_state).2 in
     configure_optimizers st1 = (Ok (VObj 2), st1)).
Proof.
  split.
  - apply (proj1 (configure_optimizers_returns (VObj 1) (VObj 2) (VObj 3)
                    (VObj 4) None (Some (VObj 5)) None empty_state)
             (VObj 5)); [reflexivity|discriminate].
  - apply (proj2 (configure_optimizers_returns (VObj 1) (VObj 2) (VObj 3)
                    (VObj 4) None None None empty_state)).
    reflexivity.
Defined.

(** C7 as stated fails: a checkpoint that already has an entry under
    ['training_config'] does not keep it. *)
Lemma on_save_checkpoint_overwrites :
  heap saved_state !! 1%positive
    = Some {[ "training_config" := VInt 1; "epoch" := VInt 5 ]}
  ∧ ¬ checkpoint_entries_kept saved_state 1%positive
        {[ "training_config" := VInt 1; "epoch" := VInt 5 ]}.
Proof.
  split; [reflexivity|].
  intros (st1 & d1 & _ & _ & Hcfg & Hkept).
  specialize (Hkept "training_config" (VInt 1) eq_refl).
  rewrite Hcfg in Hkept. discriminate.
Qed.

Example on_save_checkpoint_saved :
  ∃ st1,
    on_save_checkpoint (VDict 1) saved_state = (Ok (VDict 1), st1)
    ∧ heap st1 !! 1%positive
        = Some {[ "training_config" := VInt 2; "epoch" := VInt 5 ]}.
Proof.
  eexists. split; [reflexivity|]. vm_compute. reflexivity.
Qed.

Lemma on_save_checkpoint_sets_config_witness :
  ∃ st1 d1,
    on_save_checkpoint (VDict 1) saved_state = (Ok (VDict 1), st1)
    ∧ heap st1 !! 1%positive = Some d1
    ∧ d1 !! "training_config" = Some (VInt 2)
    ∧ d1 !! "epoch" = Some (VInt 5).
Proof.
  destruct (on_save_checkpoint_sets_config 1%positive
              {[ "training_config" := VInt 1; "epoch" := VInt 5 ]}
              saved_state eq_refl)
    as (st1 & d1 & Hrun & Hl & Hcfg & Hother & _).
  exists st1, d1. split; [exact Hrun|]. split; [exact Hl|].
  split; [exact Hcfg|]. rewrite Hother; [reflexivity|discriminate].
Defined.

Example rounding_state_losses :
  holds_loss rounding_state (VDict 1) (Torch.scalar_tensor tenth)
  ∧ holds_loss rounding_state (VDict 2) (Torch.scalar_tensor fifth)
  ∧ float_value tenth = Some (13421773 # 134217728)%Q
  ∧ float_value fifth = Some (13421773 # 67108864)%Q.
Proof.
  repeat split;
    try (eexists _, _; split; [reflexivity|split; reflexivity]);
    reflexivity.
Qed.

Example validation_end_rounds :
  (validation_end f32_mean [VDict 1; VDict 2] rounding_state).1
    = Ok (VDict 4)
  ∧ heap (validation_end f32_mean [VDict 1; VDict 2] rounding_state).2
      !! 4%positive ≫= (.!! "val_loss")
    = Some (scalar_loss (S754_finite false 10066330 (-26))).
Proof. split; vm_compute; reflexivity. Qed.

(** C4 as stated fails: in single precision the ['val_loss'] returned for
    the losses 0.1 and 0.2 is 5033165/2^25, which is not their arithmetic
    mean 40265319/2^28. *)
Lemma validation_end_mean_not_exact :
  ¬ val_loss_is_arithmetic_mean f32_mean rounding_state [VDict 1; VDict 2]
      [13421773 # 134217728; 13421773 # 67108864]%Q.
Proof.
  intros (d & st1 & entries & e & q & Hrun & Hh & Hv & Hf & Hq).
  vm_compute in Hrun. injection Hrun as <- <-.
  vm_compute in Hh. injection Hh as <-.
  vm_compute in Hv. injection Hv as <-.
  vm_compute in Hf. injection Hf as <-.
  vm_compute in Hq. discriminate.
Qed.

Lemma validation_end_mean_witness :
  ∃ logs d,
    validation_end f32_mean [VDict 1; VDict 2; VDict 3] validated_state =
      (Ok (VDict d),
       State system
             (<[d := {[ "val_loss" := scalar_loss (f32 3);
                        "log" := VDict logs;
                        "progress_bar" := VDict logs ]}]>
                (<[logs := {[ "val_loss" := scalar_loss (f32 3) ]}]>
                   (heap validated_state)))
             [] tt ∅)
    ∧ d ≠ logs.
Proof.
  destruct (proj1 (validation_end_mean f32_mean [VDict 1; VDict 2; VDict 3]
                     [f32 1; f32 2; f32 6] validated_state
                     ltac:(discriminate)
                     ltac:(repeat constructor; eexists _, _;
                           (split; [reflexivity|split; reflexivity])))
              (Torch.scalar_tensor (f32 3)) eq_refl)
    as (logs & d & Hrun & _ & _ & Hne).
  exists logs, d. split; [exact Hrun|exact Hne].
Defined.

Import Scenarios.

Lemma validation_step_returns_loss_witness :
  ∃ d,
    validation_step hooked [VInt 1; VInt 2; VStr "id"] 0 empty_state =
      (Ok (VDict d),
       State system (<[d := {[ "val_loss" := VTuple [VStr "hook"; VInt 1] ]}]> ∅)
             [Invoke (VObj 1) None [VInt 1] [];
              Invoke (VObj 3) (Some "compute")
                     [VInt 2; VTuple [VStr "hook"; VInt 1]]
                     [("infos", VStr "id")]] tt ∅).
Proof.
  destruct (validation_step_returns_loss hooked [VInt 1; VInt 2; VStr "id"] 0
              empty_state (VTuple [VStr "hook"; VInt 1])
              (State system ∅
                 [Invoke (VObj 1) None [VInt 1] [];
                  Invoke (VObj 3) (Some "compute")
                         [VInt 2; VTuple [VStr "hook"; VInt 1]]
                         [("infos", VStr "id")]] tt ∅) eq_refl)
    as (d & Hrun & _).
  exists d. exact Hrun.
Defined.

Lemma steps_share_loss_witness :
  ∃ lt lv loss st_v,
    VDict 2 = VDict lt
    ∧ validation_step hooked [VInt 1; VInt 2; VStr "id"] 7 empty_state
        = (Ok (VDict lv), st_v)
    ∧ heap (training_step hooked [VInt 1; VInt 2; VStr "id"] 0 empty_state).2
        !! lt ≫= (.!! "loss") = Some loss
    ∧ heap st_v !! lv ≫= (.!! "val_loss") = Some loss.
Proof.
  destruct (steps_share_loss hooked [VInt 1; VInt 2; VStr "id"] 0 7
              empty_state (VDict 2)
              (training_step hooked [VInt 1; VInt 2; VStr "id"] 0
                 empty_state).2 eq_refl)
    as (lt & lv & loss & st_v & Hx & Hv & Hl & Hvl & _).
  by exists lt, lv, loss, st_v.
Defined.

Lemma steps_reject_malformed_batch_witness :
  common_step hooked [VInt 1] 0 empty_state
    = (Err (malformed_batch 1), empty_state)
  ∧ training_step hooked [VInt 1] 0 empty_state
    = (Err (malformed_batch 1), empty_state)
  ∧ validation_step hooked [VInt 1] 0 empty_state
    = (Err (malformed_batch 1), empty_state).
Proof.
  apply (steps_reject_malformed_batch hooked [VInt 1] 0 empty_state);
    simpl; lia.
Defined.

Lemma common_step_model_raises_witness :
  common_step broken_model [VInt 1; VInt 2; VStr "id"] 0 start =
    (Err (Raised (VStr "out of memory")),
     State system ∅ [Invoke (VObj 1) None [VInt 1] []] 1 ∅).
Proof.
  apply (common_step_model_raises broken_model [VInt 1; VInt 2; VStr "id"] 0
           start (VInt 1) (VInt 2) (VStr "id") start
           (Raised (VStr "out of memory")) 1); reflexivity.
Defined.

Lemma common_step_reads_model_and_loss_witness :
  (common_step hooked [VInt 1; VInt 2] 0 (State system ∅ [] tt ∅)).1
    = (common_step hooked [VInt 1; VInt 2] 0
         (State (Build_System (VObj 1) VNone (VObj 3) VNone VNone (VObj 9)
                              (VStr "cfg")) ∅ [] tt ∅)).1.
Proof.
  apply (common_step_reads_model_and_loss hooked [VInt 1; VInt 2] 0 system
           (Build_System (VObj 1) VNone (VObj 3) VNone VNone (VObj 9)
                         (VStr "cfg")) ∅ [] tt ∅); reflexivity.
Defined.

Lemma dictionaries_survive_witness :
  ∃ d',
    heap (run hooked f32_mean (TrainingStep [VInt 1; VInt 2] 0) saved_state).2
      !! 1%positive = Some d'
    ∧ d' = {[ "training_config" := VInt 1; "epoch" := VInt 5 ]}.
Proof.
  destruct (dictionaries_survive hooked f32_mean (TrainingStep [VInt 1; VInt 2] 0)
              saved_state 1%positive
              {[ "training_config" := VInt 1; "epoch" := VInt 5 ]} eq_refl)
    as (d' & Hd' & _ & Hsame).
  exists d'. split; [exact Hd'|]. apply Hsame. discriminate.
Defined.

Lemma adapter_calls_model_and_loss_only_witness :
  ∃ new,
    calls (run hooked f32_mean (ValidationEnd [VDict 1; VDict 2; VDict 3])
             validated_state).2 = (calls validated_state ++ new)%list
    ∧ new = [].
Proof.
  destruct (adapter_calls_model_and_loss_only hooked f32_mean
              (ValidationEnd [VDict 1; VDict 2; VDict 3]) validated_state)
    as (new & Hc & _ & _ & Hq).
  exists new. split; [exact Hc|]. apply Hq. reflexivity.
Defined.

Lemma validation_end_fails_clean_witness :
  (@validation_end unit f32_mean [VDict 2] mixed_state).2 = mixed_state.
Proof.
  apply (validation_end_fails_clean f32_mean [VDict 2] mixed_state
           (KeyError "val_loss")
           (@validation_end unit f32_mean [VDict 2] mixed_state).2).
  reflexivity.
Defined.

Lemma validation_end_first_bad_result_witness :
  validation_end f32_mean [VDict 1; VDict 2; VStr "never read"] mixed_state
    = (Err (KeyError "val_loss"), mixed_state)
  ∧ ∃ msg, validation_end f32_mean [VDict 1; VNone; VDict 2] mixed_state
             = (Err (TypeError msg), mixed_state).
Proof.
  assert (Forall (has_val_loss mixed_state) [VDict 1]) as Hpre.
  { repeat constructor. eexists _, _, _.
    split; [reflexivity|split; reflexivity]. }
  split.
  - apply (proj1 (validation_end_first_bad_result f32_mean [VDict 1] (VDict 2)
                    [VStr "never read"] mixed_state Hpre)).
    eexists _, _. split; [reflexivity|split; reflexivity].
  - apply (proj2 (validation_end_first_bad_result f32_mean [VDict 1] VNone
                    [VDict 2] mixed_state Hpre)).
    exact I.
Defined.

Lemma saved_config_persists_witness :
  let st1 :=
    run_all hooked f32_mean
      [ValidationEnd []; OnSaveCheckpoint (VDict 1); ValDataloader;
       OnSaveCheckpoint (VInt 0)]
      (on_save_checkpoint (VDict 1) saved_state).2 in
  getitem (VDict 1) "training_config" st1 = (Ok (VInt 2), st1).
Proof.
  apply (saved_config_persists hooked f32_mean 1%positive
           {[ "training_config" := VInt 1; "epoch" := VInt 5 ]}
           [ValidationEnd []; OnSaveCheckpoint (VDict 1); ValDataloader;
            OnSaveCheckpoint (VInt 0)] saved_state).
  - reflexivity.
  - repeat constructor.
Defined.

Lemma validation_results_stay_witness :
  holds_loss
    (run_all hooked f32_mean
       [ValidationEnd [VDict 1]; OnSaveCheckpoint (VDict 2); TrainDataloader]
       validated_state) (VDict 2) (Torch.scalar_tensor (f32 2)).
Proof.
  apply (validation_results_stay hooked f32_mean
           [ValidationEnd [VDict 1]; OnSaveCheckpoint (VDict 2);
            TrainDataloader]
           validated_state (VDict 2) (Torch.scalar_tensor (f32 2))).
  - repeat constructor.
  - eexists _, _. split; [reflexivity|split; reflexivity].
Defined.

Lemma accessors_answer_from_construction_witness :
  let st0 := (@init unit (VObj 1) (VObj 2) (VObj 3) (VObj 4)
                (Some (VObj 7)) None None empty_state).2 in
  let st1 :=
    run_all hooked f32_mean
      [ValDataloader; TrainingStep [VInt 1; VInt 2] 0; ValDataloader;
       TngDataloader] st0 in
  (train_dataloader st1).1 = Ok (VObj 4)
  ∧ (val_dataloader st1).1 = Ok (VList [VObj 7])
  ∧ (tng_dataloader st1).1 = Ok VNone
  ∧ (configure_optimizers st1).1 = Ok (VObj 2).
Proof.
  apply (accessors_answer_from_construction hooked f32_mean (VObj 1)
           (VObj 2) (VObj 3) (VObj 4) (Some (VObj 7)) None None
           [ValDataloader; TrainingStep [VInt 1; VInt 2] 0; ValDataloader;
            TngDataloader] empty_state).
  reflexivity.
Defined.


Lemma common_step_agrees_with_forward_witness :
  (common_step plain [VInt 1; VInt 2; VNone] 0 start).1
    = (common_step_via_forward plain [VInt 1; VInt 2; VNone] 0 start).1.
Proof.
  apply (common_step_agrees_with_forward plain [VInt 1; VInt 2; VNone] 0
           start (VInt 1) (VInt 2) VNone start); reflexivity.
Defined.

Lemma common_step_passes_empty_infos_witness :
  ∃ l st2,
    common_step hooked [VInt 1; VInt 2] 0 empty_state
      = (Ok (VTuple [VStr "hook"; VInt 1]), st2)
    ∧ heap st2 = <[l := ∅]> ∅
    ∧ last (calls st2)
      = Some (Invoke (VObj 3) (Some "compute")
                     [VInt 2; VTuple [VStr "hook"; VInt 1]]
                     [("infos", VDict l)]).
Proof.
  destruct (common_step_passes_empty_infos hooked (VInt 1) (VInt 2) 0
              empty_state (VTuple [VStr "hook"; VInt 1]) tt
              (Ok (VTuple [VStr "hook"; VInt 1])) tt eq_refl eq_refl)
    as (l & st2 & Hrun & _ & Hh & Hlast & _).
  by exists l, st2.
Defined.
